(** * EasyPRT: the history pipeline and the timetable builder

    A shallow embedding of [src/history-parsing/parser.py] (scheduled-time
    conversion, Deduplicator, Schedule Matcher) and of
    [src/schedule-parsing/parser.py] (Timetable Builder), with the
    properties of the specification stated and proved over it.

    Conventions of the embedding.
    - A text file is the list of its lines, as [readlines] returns them
      and [writelines] stores them; a pass that rewrites the log is a
      function from the lines read to the lines written.  The write is the
      last statement of each pass, so a pass that raises writes nothing.
    - Python exceptions are values of [exn]; a computation that may raise
      has type [result A].
    - Strings are ASCII text: characters are [ascii], and the predicates
      on characters ([py_isspace], decimal digits) are Python's restricted
      to code points below 128. *)

From Stdlib Require Import Ascii ZArith.
From stdpp Require Import base option list strings pretty gmap.

Local Open Scope Z_scope.
Local Open Scope stdpp_scope.

(** ** Exceptions *)

Inductive exn : Set :=
  | IndexError
  | ValueError
  | UnboundLocalError
  | OverflowError.

Global Instance exn_eq_dec : EqDecision exn.
Proof. solve_decision. Defined.

Inductive result (A : Type) : Type :=
  | Ok (a : A)
  | Raise (e : exn).
Global Arguments Ok {A} a.
Global Arguments Raise {A} e.

Global Instance result_ret : MRet result := λ A a, Ok a.
Global Instance result_bind : MBind result := λ A B f m,
  match m with
  | Ok a => f a
  | Raise e => Raise e
  end.

(** [try: body except e: handler] *)
Definition try_except {A} (body : result A) (e : exn) (handler : result A)
  : result A :=
  match body with
  | Ok a => Ok a
  | Raise e' => if decide (e' = e) then handler else Raise e'
  end.

(** ** Python built-ins used by the source *)

Module Py.

(** [l[k]] for a non-negative index. *)
Definition index {A} (l : list A) (k : nat) : result A :=
  match l !! k with
  | Some x => Ok x
  | None => Raise IndexError
  end.

(** [str.isspace] on one ASCII character: TAB, LF, VT, FF, CR, the four
    separators FS, GS, RS, US, and the space. *)
Definition isspace (c : ascii) : bool :=
  match c with
  | "009" | "010" | "011" | "012" | "013"
  | "028" | "029" | "030" | "031" | " " => true
  | _ => false
  end%char.

Fixpoint lstrip (s : string) : string :=
  match s with
  | "" => ""
  | String c s' => if isspace c then lstrip s' else s
  end.

Fixpoint rstrip (s : string) : string :=
  match s with
  | "" => ""
  | String c s' =>
      match rstrip s' with
      | "" => if isspace c then "" else String c ""
      | r => String c r
      end
  end.

(** [s.strip()] *)
Definition strip (s : string) : string := lstrip (rstrip s).

(** [s.split(sep)] for a one-character separator. *)
Fixpoint split (sep : ascii) (s : string) : list string :=
  match s with
  | "" => [""]
  | String c s' =>
      if decide (c = sep) then "" :: split sep s'
      else match split sep s' with
           | [] => [String c ""]
           | w :: ws => String c w :: ws
           end
  end.

(** [s.startswith(p)] *)
Fixpoint startswith (p s : string) : bool :=
  match p, s with
  | "", _ => true
  | String a p', String b s' => bool_decide (a = b) && startswith p' s'
  | String _ _, "" => false
  end.

(** [sep.join(l)] *)
Fixpoint join (sep : string) (l : list string) : string :=
  match l with
  | [] => ""
  | [w] => w
  | w :: ws => w +:+ sep +:+ join sep ws
  end.

End Py.

(** The newline that ends a line of a text file. *)
Definition nl : string := String "010"%char "".

(** ** The Deduplicator: [remove_earlier_duplicate_trips] *)

Definition trip_stop_combo : Type := string * string * string.

(** The body of the [try] block up to the membership test: the three
    fields that identify a logged arrival. *)
Definition combo_of_line (line : string) : result trip_stop_combo :=
  let lst := Py.split "," (Py.strip line) in
  trip_id ← Py.index lst 0;
  stop_id ← Py.index lst 3;
  scheduled_start_date ← Py.index lst 6;
  mret (trip_id, stop_id, scheduled_start_date).

(** One iteration of [for line in lines], on the two accumulators. *)
Definition dedup_step (st : gset trip_stop_combo * list string) (line : string)
  : result (gset trip_stop_combo * list string) :=
  let '(seen_trip_stop_combos, unique_lines) := st in
  try_except
    (combo ← combo_of_line line;
     if decide (combo ∉ seen_trip_stop_combos)
     then Ok ({[combo]} ∪ seen_trip_stop_combos, unique_lines ++ [line])
     else Ok (seen_trip_stop_combos, unique_lines))
    ValueError
    (Ok (seen_trip_stop_combos, unique_lines ++ [line])).
Global Arguments dedup_step : simpl never.

Fixpoint dedup_loop (st : gset trip_stop_combo * list string)
    (lines : list string) : result (gset trip_stop_combo * list string) :=
  match lines with
  | [] => Ok st
  | line :: rest => st' ← dedup_step st line; dedup_loop st' rest
  end.

(** The pass: the lines read from [history.txt] to the lines written back. *)
Definition remove_earlier_duplicate_trips (history : list string)
  : result (list string) :=
  st ← dedup_loop (∅, []) (reverse history);
  Ok (reverse st.2).

(** ** Vocabulary for the Deduplicator's properties *)

(** A line parses as a logged arrival when it has the seven fields the
    loop body indexes. *)
Definition parseable (line : string) : Prop :=
  (7 ≤ length (Py.split "," (Py.strip line)))%nat.

Global Instance parseable_dec line : Decision (parseable line).
Proof. unfold parseable. apply _. Defined.

Global Instance result_eq_dec {A} `{EqDecision A} : EqDecision (result A).
Proof. solve_decision. Defined.

(** Specification of the pass on parseable logs: a line stays when no
    later line carries the same combo. *)
Fixpoint keep_last (l : list string) : list string :=
  match l with
  | [] => []
  | x :: rest =>
      if decide (combo_of_line x ∈ combo_of_line <$> rest)
      then keep_last rest
      else x :: keep_last rest
  end.

(** The positions of a log that have no later duplicate. *)
Definition is_last_of_combo (log : list string) (ix : nat * string) : Prop :=
  combo_of_line ix.2 ∉ combo_of_line <$> drop (S ix.1) log.

Global Instance is_last_of_combo_dec log ix : Decision (is_last_of_combo log ix).
Proof. unfold is_last_of_combo. apply _. Defined.

(** The key of the specification, read off a line by position and
    without the loop body: the texts at indices 0, 3 and 6 of the
    stripped line cut at the commas, which the log's header names
    tatripid, stop_id and scheduled_start_date.  A line with fewer than
    seven fields has no key. *)
Definition log_key (line : string) : option (string * string * string) :=
  let fields := Py.split "," (Py.strip line) in
  match fields !! 0%nat, fields !! 3%nat, fields !! 6%nat with
  | Some trip_id, Some stop_id, Some scheduled_start_date =>
      Some (trip_id, stop_id, scheduled_start_date)
  | _, _, _ => None
  end.

(** The positions of a log whose key no later line carries. *)
Definition is_last_of_key (log : list string) (ix : nat * string) : Prop :=
  log_key ix.2 ∉ log_key <$> drop (S ix.1) log.

Global Instance is_last_of_key_dec log ix : Decision (is_last_of_key log ix).
Proof. unfold is_last_of_key. apply _. Defined.

(** How the loop body's outcome on a line stands to the line's key. *)
Definition outcome_of_key (k : option trip_stop_combo) : result trip_stop_combo :=
  match k with
  | Some combo => Ok combo
  | None => Raise IndexError
  end.

(** ** Numbers and clock times as text *)

Module Num.

(** The value of one ASCII decimal digit. *)
Definition digit_of (c : ascii) : option Z := Z.of_nat <$> Ascii.is_nat c.

(** The digit character of [d mod 10]. *)
Definition digit_char (d : Z) : ascii :=
  match d `mod` 10 with
  | 0 => "0" | 1 => "1" | 2 => "2" | 3 => "3" | 4 => "4"
  | 5 => "5" | 6 => "6" | 7 => "7" | 8 => "8" | _ => "9"
  end%char.

(** Two decimal digits, zero-padded: the [%H], [%M], [%m], [%d] of
    [strftime]. *)
Definition pad2 (n : Z) : string :=
  String (digit_char (n `div` 10)) (String (digit_char n) "").

(** Four decimal digits, zero-padded: the [%Y] of [strftime] as the
    library documents it (0001 ... 9999). *)
Definition pad4 (n : Z) : string :=
  String (digit_char (n `div` 1000)) (String (digit_char (n `div` 100))
    (pad2 n)).

(** A string of ASCII decimal digits read as a number; [None] when the
    string is empty or holds another character. *)
Fixpoint digits_go (acc : Z) (s : string) : option Z :=
  match s with
  | "" => Some acc
  | String c s' =>
      match digit_of c with
      | Some d => digits_go (10 * acc + d) s'
      | None => None
      end
  end.

Definition digits (s : string) : option Z :=
  match s with
  | "" => None
  | _ => digits_go 0 s
  end.

(** The digit groups of an [int] literal: decimal digits, with single
    underscores allowed between two digits. *)
Fixpoint int_digits (acc : Z) (after_digit : bool) (s : string) : option Z :=
  match s with
  | "" => if after_digit then Some acc else None
  | String c s' =>
      match digit_of c with
      | Some d => int_digits (10 * acc + d) true s'
      | None =>
          if bool_decide (c = "_"%char) && after_digit
          then int_digits acc false s'
          else None
      end
  end.

(** The blanks [int] skips around a number: TAB, LF, VT, FF, CR and the
    space.  The separators FS, GS, RS and US, which [str.strip] removes,
    are not among them: [int] raises [ValueError] on an ASCII string
    that holds one. *)
Definition is_blank (c : ascii) : bool :=
  match c with
  | "009" | "010" | "011" | "012" | "013" | " " => true
  | _ => false
  end%char.

Fixpoint skip_blanks (s : string) : string :=
  match s with
  | "" => ""
  | String c s' => if is_blank c then skip_blanks s' else s
  end.

Fixpoint drop_trailing_blanks (s : string) : string :=
  match s with
  | "" => ""
  | String c s' =>
      match drop_trailing_blanks s' with
      | "" => if is_blank c then "" else String c ""
      | r => String c r
      end
  end.

(** [int(s)] for a string: surrounding blanks, an optional sign,
    digits.  The limit that recent interpreters put on the number of
    digits is not part of the model. *)
Definition int (s : string) : result Z :=
  let t := skip_blanks (drop_trailing_blanks s) in
  let parsed :=
    match t with
    | String "-" r => Z.opp <$> int_digits 0 false r
    | String "+" r => int_digits 0 false r
    | _ => int_digits 0 false t
    end in
  match parsed with
  | Some n => Ok n
  | None => Raise ValueError
  end.

(** [str(n)] for an integer. *)
Definition str (n : Z) : string := pretty n.

End Num.

(** ** [datetime]: the calendar, [strptime], [strftime], [timedelta] *)

Module Datetime.

Record date : Set := mkdate { year : Z; month : Z; day : Z }.

Global Instance date_eq_dec : EqDecision date.
Proof. solve_decision. Defined.

(** A moment at minute precision: the seconds field is never printed by
    the source. *)
Record datetime : Set := mkdatetime { on : date; hour : Z; minute : Z }.

Definition is_leap (y : Z) : bool :=
  bool_decide (y `mod` 4 = 0)
  && (negb (bool_decide (y `mod` 100 = 0)) || bool_decide (y `mod` 400 = 0)).

Definition days_in_month (y m : Z) : Z :=
  match m with
  | 2 => if is_leap y then 29 else 28
  | 4 | 6 | 9 | 11 => 30
  | _ => 31
  end.

(** The dates the [datetime] constructor accepts. *)
Definition valid_date (d : date) : Prop :=
  1 ≤ year d ≤ 9999 ∧ 1 ≤ month d ≤ 12
  ∧ 1 ≤ day d ≤ days_in_month (year d) (month d).

Global Instance valid_date_dec d : Decision (valid_date d).
Proof. unfold valid_date. apply _. Defined.

Definition next_day (d : date) : date :=
  if decide (day d < days_in_month (year d) (month d))
  then mkdate (year d) (month d) (day d + 1)
  else if decide (month d < 12)
  then mkdate (year d) (month d + 1) 1
  else mkdate (year d + 1) 1 1.

Definition prev_day (d : date) : date :=
  if decide (1 < day d)
  then mkdate (year d) (month d) (day d - 1)
  else if decide (1 < month d)
  then mkdate (year d) (month d - 1) (days_in_month (year d) (month d - 1))
  else mkdate (year d - 1) 12 31.

(** The date [k] days after [d] ([-k] days before it when [k < 0]). *)
Definition add_days (d : date) (k : Z) : date :=
  if decide (0 ≤ k) then Nat.iter (Z.to_nat k) next_day d
  else Nat.iter (Z.to_nat (- k)) prev_day d.

(** [datetime(d) + timedelta(seconds=n)], from midnight of [d].  A
    [timedelta] holds at most 999999999 days, and the sum must stay
    within the years 1 to 9999: both failures are [OverflowError]. *)
Definition add_seconds (d : date) (n : Z) : result datetime :=
  let days := n `div` 86400 in
  let seconds := n `mod` 86400 in
  if decide (999999999 < Z.abs days) then Raise OverflowError
  else
    let d' := add_days d days in
    if decide (1 ≤ year d' ≤ 9999)
    then Ok (mkdatetime d' (seconds `div` 3600) ((seconds `mod` 3600) `div` 60))
    else Raise OverflowError.

(** One or two ASCII digits. *)
Definition digits12 (s : string) : option Z :=
  if decide (1 ≤ String.length s ≤ 2)%nat then Num.digits s else None.

(** The day of the month of [%d]: one or two digits, or a space and a
    digit. *)
Definition day_field (s : string) : option Z :=
  match s with
  | String " " r => if decide (String.length r = 1%nat) then Num.digits r else None
  | _ => digits12 s
  end.

(** [datetime.strptime(s, '%Y-%m-%d')] *)
Definition strptime_Ymd (s : string) : result date :=
  match Py.split "-" s with
  | [y; m; d] =>
      match (if decide (String.length y = 4%nat) then Num.digits y else None),
            digits12 m, day_field d with
      | Some y', Some m', Some d' =>
          if decide (1 ≤ m' ∧ 1 ≤ d' ∧ valid_date (mkdate y' m' d'))
          then Ok (mkdate y' m' d')
          else Raise ValueError
      | _, _, _ => Raise ValueError
      end
  | _ => Raise ValueError
  end.

(** [datetime.strptime(s, '%H:%M:%S')], of which the source prints the
    hour and the minute only. *)
Definition strptime_HMS (s : string) : result (Z * Z) :=
  match Py.split ":" s with
  | [h; m; sec] =>
      match digits12 h, digits12 m, digits12 sec with
      | Some h', Some m', Some s' =>
          if decide (h' ≤ 23 ∧ m' ≤ 59 ∧ s' ≤ 59)
          then Ok (h', m')
          else Raise ValueError
      | _, _, _ => Raise ValueError
      end
  | _ => Raise ValueError
  end.

(** [.strftime('%H:%M')] *)
Definition strftime_HM (hm : Z * Z) : string :=
  Num.pad2 hm.1 +:+ ":" +:+ Num.pad2 hm.2.

(** [.strftime('%Y-%m-%d')] *)
Definition strftime_Ymd (d : date) : string :=
  Num.pad4 (year d) +:+ "-" +:+ Num.pad2 (month d) +:+ "-" +:+ Num.pad2 (day d).

(** [.strftime('%Y-%m-%d %H:%M')] *)
Definition strftime_YmdHM (t : datetime) : string :=
  strftime_Ymd (on t) +:+ " " +:+ strftime_HM (hour t, minute t).

End Datetime.

(** ** Scheduled-time conversion: [convert_scheduled_start_date_time] *)

Definition convert_scheduled_start_date_time (date_str seconds_str : string)
  : result (string * string) :=
  original_date ← Datetime.strptime_Ymd date_str;
  seconds ← Num.int seconds_str;
  date_time ← Datetime.add_seconds original_date seconds;
  let lst := Py.split " " (Datetime.strftime_YmdHM date_time) in
  date_str ← Py.index lst 0;
  time_str ← Py.index lst 1;
  if Py.startswith "00:" time_str
  then minute ← Py.index (Py.split ":" time_str) 1;
       Ok (date_str, "24:" +:+ minute)
  else Ok (date_str, time_str).

(** ** The Schedule Matcher: [find_scheduled_arrival_time] and
    [log_scheduled_arrival_times]

    [schedule] is the list of lines of [schedule.txt], header included;
    the source reads the file anew at every lookup and never writes it. *)

(** The test of the first loop at index [i]: [true] when the loop leaves
    through one of its two [break]s there.  [and] evaluates its operands
    from the left and stops at the first false one, so a field is indexed
    only when the fields before it matched. *)
Definition breaks_at (lines : list string)
    (route_id direction scheduled_start_time : string) (i : nat) : result bool :=
  l ← Py.index lines i;
  let line := Py.strip l in
  let stop := Py.split "," line in
  let schedule_style_direction :=
    if decide (direction = "OUTBOUND") then "0" else "1" in
  stop1 ← Py.index stop 1;
  if decide (stop1 = route_id) then
    stop3 ← Py.index stop 3;
    if decide (stop3 = schedule_style_direction) then
      stop4 ← Py.index stop 4;
      if Py.startswith scheduled_start_time stop4 then
        if decide (i = 1%nat) then Ok true
        else
          prev ← Py.index lines (i - 1);
          prev_line_route_id ← Py.index (Py.split "," prev) 1;
          Ok (bool_decide (prev_line_route_id ≠ route_id))
      else Ok false
    else Ok false
  else Ok false.
Global Arguments breaks_at : simpl never.

(** [for i in range(1, len(lines))]: the value [i] holds when the loop is
    left, [None] while it is unbound. *)
Fixpoint first_loop (lines : list string)
    (route_id direction scheduled_start_time : string)
    (range : list nat) (i : option nat) : result (option nat) :=
  match range with
  | [] => Ok i
  | i' :: rest =>
      b ← breaks_at lines route_id direction scheduled_start_time i';
      if b : bool then Ok (Some i')
      else first_loop lines route_id direction scheduled_start_time rest (Some i')
  end.

(** The [try] / [except ValueError] that formats the arrival time. *)
Definition format_arrival (stop4 : string) : result string :=
  try_except
    (t ← Datetime.strptime_HMS stop4; Ok (Datetime.strftime_HM t))
    ValueError
    (let timeArr := Py.split ":" stop4 in
     a0 ← Py.index timeArr 0;
     h ← Num.int a0;
     a1 ← Py.index timeArr 1;
     a2 ← Py.index timeArr 2;
     let timeStr := Py.join ":" [Num.str (h - 24); a1; a2] in
     t ← Datetime.strptime_HMS timeStr;
     Ok (Datetime.strftime_HM t)).
Global Arguments format_arrival : simpl never.

(** [for j in range(i + 1, len(lines))]; falling off the end of the
    function returns [None]. *)
Fixpoint second_loop (lines : list string) (stop_id : string)
    (range : list nat) : result (option string) :=
  match range with
  | [] => Ok None
  | j :: rest =>
      l ← Py.index lines j;
      let line := Py.strip l in
      let stop := Py.split "," line in
      stop6 ← Py.index stop 6;
      if decide (stop6 = stop_id) then
        stop4 ← Py.index stop 4;
        t ← format_arrival stop4;
        Ok (Some t)
      else second_loop lines stop_id rest
  end.

(** [range(a, b)] *)
Definition range (a b : nat) : list nat := seq a (b - a).

Definition find_scheduled_arrival_time (schedule : list string)
    (stop_id route_id direction scheduled_start_time : string)
  : result (option string) :=
  let lines := schedule in
  i ← first_loop lines route_id direction scheduled_start_time
         (range 1 (length lines)) None;
  match i with
  | None => Raise UnboundLocalError
  | Some i => second_loop lines stop_id (range (i + 1) (length lines))
  end.

(** The body of [for i in range(1, len(lines))] for the row [lines[i]]:
    what the iteration appends to [new_lines], if anything. *)
Definition match_row (schedule : list string) (row : string)
  : result (option string) :=
  let line := Py.strip row in
  let lst := Py.split "," line in
  if decide (length lst = 10%nat) then Ok (Some (line +:+ nl))
  else
    stop_id ← Py.index lst 3;
    route_id ← Py.index lst 4;
    direction ← Py.index lst 5;
    scheduled_start_time ← Py.index lst 7;
    scheduled_arrival_time ←
      find_scheduled_arrival_time schedule stop_id route_id direction
        scheduled_start_time;
    match scheduled_arrival_time with
    | Some t => Ok (Some (line +:+ "," +:+ t +:+ nl))
    | None => Ok None
    end.
Global Arguments match_row : simpl never.

Fixpoint matcher_loop (schedule : list string) (rows : list string)
    (new_lines : list string) : result (list string) :=
  match rows with
  | [] => Ok new_lines
  | row :: rest =>
      appended ← match_row schedule row;
      match appended with
      | Some l => matcher_loop schedule rest (new_lines ++ [l])
      | None => matcher_loop schedule rest new_lines
      end
  end.

(** The pass: the lines read from [history.txt] to the lines written
    back.  The loop visits [lines[1]], [lines[2]], ... in turn. *)
Definition log_scheduled_arrival_times (schedule history : list string)
  : result (list string) :=
  let lines := history in
  first ← Py.index lines 0;
  matcher_loop schedule (drop 1 lines) [first].

(** ** The Timetable Builder: [readTrips], [readStops],
    [readStopTimes], [mergeStopTimesAndTrips]

    [np.loadtxt(..., dtype='S100', usecols=[a, b, c, d])] is modelled by
    its value, a two-dimensional array of four text columns, which is what
    it yields for a file with at least two data rows; a table is the list
    of the rows of that array.  A file with fewer data rows is outside
    the model: [np.loadtxt] then yields a one-dimensional array, on
    which [np.insert(..., axis=1)] raises for the stop_times and the
    loops of [readTrips] and [readStops] run over cells, not rows.  Every
    statement about the builder therefore assumes at least two rows in
    each of the three tables. *)

Module Timetable.

(** A row of a loaded table: the four columns kept by [usecols], in
    order ([row[0]] ... [row[3]]). *)
Record row4 : Set := mkrow4 { c0 : string; c1 : string; c2 : string; c3 : string }.

(** The loop shared by [readTrips] and [readStops]:
    [if id not in d: d[id] = row], the id being column 0. *)
Definition dict_step (d : gmap string row4) (row : row4) : gmap string row4 :=
  let id := c0 row in
  match d !! id with
  | None => <[id := row]> d
  | Some _ => d
  end.

Definition readTrips (trips : list row4) : list row4 * gmap string row4 :=
  let tripsDict := foldl dict_step ∅ trips in
  (trips, tripsDict).

Definition readStops (stops : list row4) : list row4 * gmap string row4 :=
  let stopsDict := foldl dict_step ∅ stops in
  (stops, stopsDict).

Definition readStopTimes (stop_times : list row4) : list row4 := stop_times.

(** A float zero stored into an array of byte strings. *)
Definition zero : string := "0.0".

(** [np.insert(a, k, zeros, axis=1)] on one row. *)
Definition insert_col (k : nat) (row : list string) : list string :=
  take k row ++ zero :: drop k row.

Definition num_trip_cols : nat := 3.
Definition num_stop_cols : nat := 3.

(** The two widening steps on one row of [stopsTimes]. *)
Definition widen (st : row4) : list string :=
  Nat.iter num_trip_cols (insert_col 1) [c0 st; c1 st; c2 st; c3 st]
  ++ replicate num_stop_cols zero.

(** The body of [for stop in stopsTimes], on one widened row. *)
Definition enrich (tripsDict stopsDict : gmap string row4)
    (stop : list string) : list string :=
  let endCol := (length stop - num_stop_cols)%nat in
  let tripId := default "" (stop !! 0%nat) in
  let stopId := default "" (stop !! (3 + num_trip_cols)%nat) in
  let stop :=
    match tripsDict !! tripId with
    | Some trip =>
        <[3%nat := c3 trip]> (<[2%nat := c2 trip]> (<[1%nat := c1 trip]> stop))
    | None => stop
    end in
  match stopsDict !! stopId with
  | Some s =>
      <[(endCol + 2)%nat := c3 s]>
        (<[(endCol + 1)%nat := c2 s]> (<[endCol := c1 s]> stop))
  | None => stop
  end.

Definition titles : list string :=
  ["trip_id"; "route_id"; "service_id"; "route_direction"; "arrival_time";
   "departure_time"; "stop_id"; "stop_name"; "stop_latitude";
   "stop_longitude"].

Definition mergeStopTimesAndTrips (stop_times trips stops : list row4)
  : list (list string) :=
  let stopsTimes := readStopTimes stop_times in
  let '(_, tripsDict) := readTrips trips in
  let '(_, stopsDict) := readStops stops in
  let stopsTimes := widen <$> stopsTimes in
  let stopsTimes := enrich tripsDict stopsDict <$> stopsTimes in
  titles :: stopsTimes.

(** The first row of a table with a given id, the notion the
    specification calls first-seen-wins. *)
Definition first_with_id (table : list row4) (id : string) (i : nat)
    (row : row4) : Prop :=
  table !! i = Some row ∧ c0 row = id
  ∧ ∀ j row', (j < i)%nat → table !! j = Some row' → c0 row' ≠ id.

End Timetable.

(** ** Sample data *)

(** The header line that [write_first_line] puts in an empty log. *)
Definition header_line : string :=
  "tatripid,log_time,stop_name,stop_id,route_id,direction,scheduled_start_date,scheduled_start_time,actual_arrival_time,scheduled_arrival_time"
  +:+ nl.

(** A short log in which trip 9001 is seen twice at stop 1177. *)
Definition sample_log : list string :=
  [ header_line;
    "9001,2023-12-11T06:30,'FIFTH',1177,61A,OUTBOUND,2023-12-11,06:35,06:44" +:+ nl;
    "9002,2023-12-11T06:30,'FIFTH',1177,71B,INBOUND,2023-12-11,06:20,06:47" +:+ nl;
    "9001,2023-12-11T06:31,'FIFTH',1177,61A,OUTBOUND,2023-12-11,06:35,06:45" +:+ nl ].

(** A log in which trip 9001 is seen twice at stop 1177 on one day, once
    at stop 7117 on that day, and once at stop 1177 on the next day. *)
Definition sample_log_stops : list string :=
  [ header_line;
    "9001,2023-12-11T06:30,'FIFTH',1177,61A,OUTBOUND,2023-12-11,06:35,06:44" +:+ nl;
    "9001,2023-12-11T06:30,'FORBES',7117,61A,OUTBOUND,2023-12-11,06:35,06:50" +:+ nl;
    "9001,2023-12-11T06:31,'FIFTH',1177,61A,OUTBOUND,2023-12-11,06:35,06:45" +:+ nl;
    "9001,2023-12-12T06:30,'FIFTH',1177,61A,OUTBOUND,2023-12-12,06:35,06:46" +:+ nl ].

(** ** Vocabulary for the Schedule Matcher's properties *)

(** Field [k] of a comma-separated line, read as both loops read it:
    [line.strip().split(",")[k]]. *)
Definition field (k : nat) (line : string) : result string :=
  Py.index (Py.split "," (Py.strip line)) k.

(** The first loop leaves through a [break] at index [i]: the test
    succeeds there and failed at every index before. *)
Definition trip_start (schedule : list string)
    (route_id direction scheduled_start_time : string) (i : nat) : Prop :=
  (1 ≤ i < length schedule)%nat
  ∧ breaks_at schedule route_id direction scheduled_start_time i = Ok true
  ∧ ∀ k, (1 ≤ k < i)%nat →
      breaks_at schedule route_id direction scheduled_start_time k = Ok false.

(** The first loop runs to the end of a timetable that has at least one
    data row without reaching a [break]. *)
Definition no_trip_start (schedule : list string)
    (route_id direction scheduled_start_time : string) : Prop :=
  (2 ≤ length schedule)%nat
  ∧ ∀ k, (1 ≤ k < length schedule)%nat →
      breaks_at schedule route_id direction scheduled_start_time k = Ok false.

(** Every line with an index in the open interval from [i] to [j] has a
    stop_id field, and it is not [stop_id]. *)
Definition stop_absent_between (schedule : list string) (stop_id : string)
    (i j : nat) : Prop :=
  ∀ k l, (i < k < j)%nat → schedule !! k = Some l →
    ∃ x, field 6 l = Ok x ∧ x ≠ stop_id.

(** The lookup has nothing to return: no trip start, or a trip start
    with no line carrying [stop_id] anywhere after it, up to the end of
    the timetable. *)
Definition unmatched (schedule : list string)
    (stop_id route_id direction scheduled_start_time : string) : Prop :=
  no_trip_start schedule route_id direction scheduled_start_time
  ∨ ∃ i, trip_start schedule route_id direction scheduled_start_time i
         ∧ stop_absent_between schedule stop_id i (length schedule).

(** The lines at the head of [lines] that carry the given trip_id. *)
Fixpoint run_of_trip (trip_id : result string) (lines : list string)
  : list string :=
  match lines with
  | [] => []
  | l :: rest =>
      if decide (field 0 l = trip_id) then l :: run_of_trip trip_id rest else []
  end.

(** The block of the glossary, "the contiguous run of Timetable rows
    belonging to one trip": the lines from index [i] on that carry the
    trip_id of line [i].  The code has no such notion; it serves to state
    what the scan does not respect. *)
Definition trip_block (schedule : list string) (i : nat) : list string :=
  match schedule !! i with
  | Some first => run_of_trip (field 0 first) (drop i schedule)
  | None => []
  end.

(** The header line of [schedule.txt], the [titles] of the builder. *)
Definition schedule_header : string :=
  "trip_id,route_id,service_id,route_direction,arrival_time,departure_time,stop_id,stop_name,stop_latitude,stop_longitude"
  +:+ nl.

(** An arrival of route 61A, outbound, trip starting 06:35, at stop 1177,
    as the recorder writes it: nine fields. *)
Definition observation : string :=
  "9001,2023-12-11T06:31,'FIFTH',1177,61A,OUTBOUND,2023-12-11,06:35,06:45" +:+ nl.

(** One trip of 61A starting 06:35, reaching stop 1177 at 06:42. *)
Definition schedule_one_trip : list string :=
  [ schedule_header;
    "T1,61A,WK,0,06:35:00,06:35:00,100,FORBES,40.44,-79.95" +:+ nl;
    "T1,61A,WK,0,06:42:00,06:42:00,1177,FIFTH,40.45,-79.93" +:+ nl ].

(** The same trip reduced to its first stop, followed by a trip of
    another route that serves stop 1177. *)
Definition schedule_two_trips : list string :=
  [ schedule_header;
    "T1,61A,WK,0,06:35:00,06:35:00,100,FORBES,40.44,-79.95" +:+ nl;
    "T2,71B,WK,0,07:00:00,07:00:00,1177,FIFTH,40.45,-79.93" +:+ nl ].

(** The trip of [schedule_one_trip] preceded by an earlier trip of the
    same route. *)
Definition schedule_same_route : list string :=
  [ schedule_header;
    "T0,61A,WK,0,06:05:00,06:05:00,100,FORBES,40.44,-79.95" +:+ nl;
    "T1,61A,WK,0,06:35:00,06:35:00,100,FORBES,40.44,-79.95" +:+ nl;
    "T1,61A,WK,0,06:42:00,06:42:00,1177,FIFTH,40.45,-79.93" +:+ nl ].

(** A trip that never serves stop 1177. *)
Definition schedule_other_stops : list string :=
  [ schedule_header;
    "T1,61A,WK,0,06:35:00,06:35:00,100,FORBES,40.44,-79.95" +:+ nl;
    "T1,61A,WK,0,06:42:00,06:42:00,200,CRAIG,40.45,-79.94" +:+ nl ].

(** A trip that starts at stop 1177 and comes back to it. *)
Definition schedule_loop : list string :=
  [ schedule_header;
    "T1,61A,WK,0,06:35:00,06:35:00,1177,FIFTH,40.45,-79.93" +:+ nl;
    "T1,61A,WK,0,06:50:00,06:50:00,100,FORBES,40.44,-79.95" +:+ nl;
    "T1,61A,WK,0,07:10:00,07:10:00,1177,FIFTH,40.45,-79.93" +:+ nl ].

(** Tables in which an id occurs twice with different data. *)
Definition sample_stop_times : list Timetable.row4 :=
  [ Timetable.mkrow4 "T1" "06:35:00" "06:35:00" "100";
    Timetable.mkrow4 "T1" "06:42:00" "06:42:00" "1177" ].

Definition sample_trips : list Timetable.row4 :=
  [ Timetable.mkrow4 "T1" "61A" "WK" "0";
    Timetable.mkrow4 "T1" "71B" "SA" "1" ].

Definition sample_stops : list Timetable.row4 :=
  [ Timetable.mkrow4 "100" "FORBES" "40.44" "-79.95";
    Timetable.mkrow4 "1177" "FIFTH" "40.45" "-79.93";
    Timetable.mkrow4 "1177" "FIFTH AVE" "40.46" "-79.92" ].

(** ** Vocabulary for text proofs *)

(** The character [c] occurs in [s]. *)
Fixpoint has_char (c : ascii) (s : string) : bool :=
  match s with
  | "" => false
  | String a s' => bool_decide (a = c) || has_char c s'
  end.

(** A clock time written with two digits per component. *)
Definition clock (h m s : Z) : string :=
  Num.pad2 h +:+ ":" +:+ Num.pad2 m +:+ ":" +:+ Num.pad2 s.

(** The clock text the conversion returns for [n] seconds past
    midnight: the hour and minute of [n] modulo one day, with hour 0
    written 24. *)
Definition clock_of_seconds (n : Z) : string :=
  let h := (n `mod` 86400) `div` 3600 in
  let m := ((n `mod` 86400) `mod` 3600) `div` 60 in
  if decide (h = 0) then "24:" +:+ Num.pad2 m
  else Num.pad2 h +:+ ":" +:+ Num.pad2 m.

(** ** The two passes in turn

    The [except KeyboardInterrupt] block of the main program: the
    Deduplicator rewrites [history.txt], then the Matcher reads what was
    written.  When the first pass raises, the second is not run. *)
Definition finalize (schedule history : list string) : result (list string) :=
  deduplicated ← remove_earlier_duplicate_trips history;
  log_scheduled_arrival_times schedule deduplicated.

(** ** Writing the timetable: the main program of the builder

    [np.savetxt('schedule.txt', result, '%s', delimiter=",",
    comments=None)]: one line per row of the table, its cells joined by
    the delimiter and followed by a newline. *)
Definition savetxt (table : list (list string)) : list string :=
  (λ row, Py.join "," row +:+ nl) <$> table.

(** The lines of [schedule.txt] for the three loaded tables, each of at
    least two rows (see [Timetable]). *)
Definition write_schedule (stop_times trips stops : list Timetable.row4)
  : list string :=
  savetxt (Timetable.mergeStopTimesAndTrips stop_times trips stops).

(** The cells of a loaded row hold no delimiter, [np.loadtxt] having cut
    the line at each of them. *)
Definition comma_free (row : Timetable.row4) : Prop :=
  has_char "," (Timetable.c0 row) = false
  ∧ has_char "," (Timetable.c1 row) = false
  ∧ has_char "," (Timetable.c2 row) = false
  ∧ has_char "," (Timetable.c3 row) = false.

Global Instance comma_free_dec row : Decision (comma_free row).
Proof. unfold comma_free. apply _. Defined.

(** ** The recorder: the body of the loop of [log_actual_arrivals]

    One element of [data["bustime-response"]["prd"]], with the keys the
    loop reads. *)
Module Api.

Record prediction : Set := mkprediction {
  tatripid : string;
  tmstmp : string;
  stpnm : string;
  stpid : string;
  rt : string;
  rtdir : string;
  stsd : string;
  stst : string;
  prdtm : string
}.

End Api.

(** The line written for one arrival.  [datetime.strptime(...,
    '%Y%m%d %H:%M')], which reads the API's time stamp, is the parameter
    [strptime_compact]; the line's layout does not depend on it. *)
Definition log_row (strptime_compact : string → result Datetime.datetime)
    (arrival : Api.prediction) : result string :=
  '(scheduled_start_date, scheduled_start_time) ←
    convert_scheduled_start_date_time (Api.stsd arrival) (Api.stst arrival);
  t ← strptime_compact (Api.tmstmp arrival);
  let log_time :=
    Datetime.strftime_Ymd (Datetime.on t) +:+ "T"
    +:+ Datetime.strftime_HM (Datetime.hour t, Datetime.minute t) in
  arrival_time ← Py.index (Py.split " " (Api.prdtm arrival)) 1;
  Ok (Api.tatripid arrival +:+ "," +:+ log_time +:+ ",'"
      +:+ Api.stpnm arrival +:+ "'," +:+ Api.stpid arrival +:+ ","
      +:+ Api.rt arrival +:+ "," +:+ Api.rtdir arrival +:+ ","
      +:+ scheduled_start_date +:+ "," +:+ scheduled_start_time +:+ ","
      +:+ arrival_time +:+ nl).

(** The values of the API hold no comma. *)
Definition plain (arrival : Api.prediction) : Prop :=
  has_char "," (Api.tatripid arrival) = false
  ∧ has_char "," (Api.stpnm arrival) = false
  ∧ has_char "," (Api.stpid arrival) = false
  ∧ has_char "," (Api.rt arrival) = false
  ∧ has_char "," (Api.rtdir arrival) = false
  ∧ has_char "," (Api.prdtm arrival) = false.

Global Instance plain_dec arrival : Decision (plain arrival).
Proof. unfold plain. apply _. Defined.

(** A prediction of route 61A at stop 1177, as the API gives it. *)
Definition sample_prediction : Api.prediction :=
  Api.mkprediction "9001" "20231211 06:31" "FIFTH" "1177" "61A" "OUTBOUND"
    "2023-12-11" "23700" "20231211 06:45".

(** ** The API parameter: [stpid]

    The stops whose arrivals are logged, as the source lists them. *)
Definition stop_ids : list Z :=
  [7117; 1177; 7126; 7096; 2565; 36; 4407; 1167; 19383; 3268].

(** [for i in range(len(stop_ids))], on the text built so far. *)
Fixpoint stpid_loop (stop_ids : list Z) (range : list nat) (stpid : string)
  : result string :=
  match range with
  | [] => Ok stpid
  | i :: rest =>
      if decide (i = 0%nat) then
        x ← Py.index stop_ids i;
        stpid_loop stop_ids rest (stpid +:+ Num.str x)
      else
        x ← Py.index stop_ids i;
        stpid_loop stop_ids rest (stpid +:+ "," +:+ Num.str x)
  end.

(** The function for a given setting of [stop_ids]. *)
Definition stpid_of (stop_ids : list Z) : result string :=
  stpid_loop stop_ids (range 0 (length stop_ids)) "".

Definition stpid : result string := stpid_of stop_ids.

(** * Proofs *)

(** Closed decidable facts are settled by evaluation. *)
Ltac by_computation := apply (bool_decide_unpack _); vm_compute; exact I.

(** Reduce binds, matches and handlers, leaving text and numbers as they
    stand. *)
Ltac frozen_cbn :=
  cbn -[Py.split Py.join Py.strip Py.startswith String.append Num.pad2
        Num.pad4 Num.str Num.int Datetime.strptime_HMS Datetime.strftime_HM
        Datetime.strftime_Ymd Datetime.strftime_YmdHM Datetime.add_days
        Z.modulo Z.div Z.mul Z.add Z.sub].

Tactic Notation "frozen_cbn" "in" hyp(H) :=
  cbn -[Py.split Py.join Py.strip Py.startswith String.append Num.pad2
        Num.pad4 Num.str Num.int Datetime.strptime_HMS Datetime.strftime_HM
        Datetime.strftime_Ymd Datetime.strftime_YmdHM Datetime.add_days
        Z.modulo Z.div Z.mul Z.add Z.sub] in H.

(** ** The Deduplicator *)

Section dedup_facts.

Implicit Types (line : string) (l log : list string)
  (seen : gset trip_stop_combo).

Lemma index_Ok {A} (l' : list A) k x : l' !! k = Some x → Py.index l' k = Ok x.
Proof. unfold Py.index. by intros ->. Qed.

Lemma index_Raise {A} (l' : list A) k :
  (length l' ≤ k)%nat → Py.index l' k = Raise IndexError.
Proof. intros H. unfold Py.index. by rewrite lookup_ge_None_2. Qed.

Lemma index_lt {A} (l' : list A) k :
  (k < length l')%nat → ∃ x, Py.index l' k = Ok x ∧ l' !! k = Some x.
Proof.
  intros H. destruct (lookup_lt_is_Some_2 l' k H) as [x Hx].
  exists x. split; [by apply index_Ok | done].
Qed.

Lemma combo_of_line_parseable line :
  parseable line → ∃ combo, combo_of_line line = Ok combo.
Proof.
  unfold parseable, combo_of_line. intros H.
  destruct (index_lt (Py.split "," (Py.strip line)) 0) as (a & -> & _); [lia|].
  destruct (index_lt (Py.split "," (Py.strip line)) 3) as (b & -> & _); [lia|].
  destruct (index_lt (Py.split "," (Py.strip line)) 6) as (c & -> & _); [lia|].
  by eexists.
Qed.

Lemma combo_of_line_unparseable line :
  ¬ parseable line → combo_of_line line = Raise IndexError.
Proof.
  unfold parseable, combo_of_line. intros H.
  destruct (Py.index _ 0) as [a|e] eqn:E0; simpl.
  2:{ unfold Py.index in E0. by destruct (_ !! _); simplify_eq. }
  destruct (Py.index _ 3) as [b|e] eqn:E3; simpl.
  2:{ unfold Py.index in E3. by destruct (_ !! _); simplify_eq. }
  rewrite index_Raise; [done | lia].
Qed.

Lemma dedup_step_parseable seen l line combo :
  combo_of_line line = Ok combo →
  dedup_step (seen, l) line =
    if decide (combo ∉ seen) then Ok ({[combo]} ∪ seen, l ++ [line])
    else Ok (seen, l).
Proof. intros H. unfold dedup_step. rewrite H. simpl. by case_decide. Qed.

Lemma dedup_step_unparseable st line :
  ¬ parseable line → dedup_step st line = Raise IndexError.
Proof.
  intros H. destruct st as [seen l]. unfold dedup_step.
  by rewrite combo_of_line_unparseable.
Qed.

Lemma dedup_loop_app st l1 l2 :
  dedup_loop st (l1 ++ l2) = st' ← dedup_loop st l1; dedup_loop st' l2.
Proof.
  revert st. induction l1 as [|x l1 IH]; intros st; [done|].
  simpl. destruct (dedup_step st x) as [st'|e]; simpl; [apply IH | done].
Qed.

(** A line with too few fields aborts the loop wherever it stands. *)
Lemma dedup_loop_unparseable st l :
  Exists (λ line, ¬ parseable line) l → dedup_loop st l = Raise IndexError.
Proof.
  intros H. revert st. induction l as [|x l IH]; intros st.
  { by apply Exists_nil in H. }
  simpl. destruct (decide (parseable x)) as [Hx|Hx].
  - destruct (combo_of_line_parseable x Hx) as [combo Hc].
    destruct st as [seen u]. rewrite (dedup_step_parseable _ _ _ _ Hc).
    apply Exists_cons in H as [H|H]; [done|].
    case_decide; simpl; by apply IH.
  - by rewrite dedup_step_unparseable.
Qed.

(** The loop over the reversed log computes [keep_last], reversed. *)
Lemma dedup_loop_reverse l :
  Forall parseable l →
  ∃ seen, dedup_loop (∅, []) (reverse l) = Ok (seen, reverse (keep_last l))
    ∧ ∀ combo, combo ∈ seen ↔ Ok combo ∈ combo_of_line <$> l.
Proof.
  induction 1 as [|x l Hx Hl (seen & IH & Hseen)].
  - exists ∅. split; [done|]. intros combo. set_solver.
  - destruct (combo_of_line_parseable x Hx) as [combo Hc].
    rewrite reverse_cons, dedup_loop_app, IH. simpl.
    rewrite (dedup_step_parseable _ _ _ _ Hc), Hc.
    destruct (decide (combo ∉ seen)) as [Hn|Hn].
    + exists ({[combo]} ∪ seen). rewrite decide_False.
      2:{ by rewrite <- Hseen. }
      split; [by rewrite reverse_cons|].
      intros k. rewrite elem_of_union, elem_of_singleton, elem_of_cons.
      split.
      * intros [->|?]; [by left | right; by apply Hseen].
      * intros [?|?]; [left; congruence | right; by apply Hseen].
    + apply dec_stable in Hn. exists seen. rewrite decide_True.
      2:{ by rewrite <- Hseen. }
      split; [done|].
      intros k. rewrite elem_of_cons. split.
      * intros ?. right. by apply Hseen.
      * intros [?|?]; [simplify_eq; done | by apply Hseen].
Qed.

Lemma dedup_parseable log :
  Forall parseable log →
  remove_earlier_duplicate_trips log = Ok (keep_last log).
Proof.
  intros H. unfold remove_earlier_duplicate_trips.
  destruct (dedup_loop_reverse log H) as (seen & -> & _). simpl.
  by rewrite reverse_involutive.
Qed.

Lemma dedup_Ok_parseable log out :
  remove_earlier_duplicate_trips log = Ok out → Forall parseable log.
Proof.
  intros H. destruct (decide (Forall parseable log)) as [|Hn]; [done|].
  rewrite <- Forall_reverse in Hn.
  apply not_Forall_Exists in Hn; [|apply _].
  unfold remove_earlier_duplicate_trips in H.
  by rewrite dedup_loop_unparseable in H.
Qed.

Lemma keep_last_sublist l : keep_last l `sublist_of` l.
Proof.
  induction l as [|x l IH]; [done|]. simpl.
  case_decide; by constructor.
Qed.

Lemma keep_last_combos l x :
  x ∈ l → combo_of_line x ∈ combo_of_line <$> keep_last l.
Proof.
  revert x. induction l as [|y l IH]; intros x; [by intros ?%elem_of_nil|].
  intros [->|Hx]%elem_of_cons; simpl.
  - case_decide as Hy.
    + apply list_elem_of_fmap in Hy as (z & -> & Hz). by apply IH.
    + rewrite fmap_cons. by left.
  - case_decide; [by apply IH|]. rewrite fmap_cons. right. by apply IH.
Qed.

Lemma keep_last_NoDup l : NoDup (combo_of_line <$> keep_last l).
Proof.
  induction l as [|x l IH]; simpl; [constructor|].
  case_decide as Hx; [done|].
  rewrite fmap_cons. constructor; [|done].
  intros (y & Hy & Hin)%list_elem_of_fmap. apply Hx.
  apply list_elem_of_fmap. exists y. split; [done|].
  by eapply elem_of_sublist; [|apply keep_last_sublist].
Qed.

Lemma keep_last_id l : NoDup (combo_of_line <$> l) → keep_last l = l.
Proof.
  induction l as [|x l IH]; [done|].
  rewrite fmap_cons. intros [Hx Hl]%NoDup_cons. simpl.
  rewrite decide_False by done. f_equal. by apply IH.
Qed.

Lemma filter_imap_shift {A} (P Q : nat * A → Prop)
    `{∀ ix, Decision (P ix)} `{∀ ix, Decision (Q ix)}
    (f g : nat → nat) (l' : list A) :
  (∀ i y, P (f i, y) ↔ Q (g i, y)) →
  (filter P (imap (λ i y, (f i, y)) l')).*2
  = (filter Q (imap (λ i y, (g i, y)) l')).*2.
Proof.
  revert f g. induction l' as [|y l' IH]; intros f g HPQ; [done|].
  simpl. rewrite !filter_cons.
  pose proof (IH (f ∘ S) (g ∘ S) (λ i y', HPQ (S i) y')) as IH'.
  destruct (decide (P (f 0%nat, y))) as [HP|HP];
    destruct (decide (Q (g 0%nat, y))) as [HQ|HQ].
  - rewrite !fmap_cons. simpl. f_equal. apply IH'.
  - by apply HPQ in HP.
  - by apply HPQ in HQ.
  - apply IH'.
Qed.

Lemma keep_last_filter l :
  keep_last l = (filter (is_last_of_combo l) (imap pair l)).*2.
Proof.
  induction l as [|x l IH]; [done|].
  simpl. rewrite filter_cons.
  pose proof (filter_imap_shift (is_last_of_combo (x :: l))
                (is_last_of_combo l) S id l (λ i y, reflexivity _)) as Hs.
  change (imap (λ i y, (S i, y)) l) with (imap (pair ∘ S) l) in Hs.
  change (imap (λ i y, (id i, y)) l) with (imap pair l) in Hs.
  rewrite <- IH in Hs.
  destruct (decide (combo_of_line x ∈ combo_of_line <$> l)) as [Hx|Hx].
  - rewrite decide_False; [done|].
    unfold is_last_of_combo. simpl. rewrite drop_0. tauto.
  - rewrite decide_True; [by rewrite fmap_cons, Hs|].
    unfold is_last_of_combo. simpl. by rewrite drop_0.
Qed.

(** The loop body reads the key and nothing else: its outcome on a
    line is the line's key, or [IndexError] when there is none. *)
Lemma combo_of_line_key line :
  combo_of_line line = outcome_of_key (log_key line).
Proof.
  unfold combo_of_line, log_key, Py.index.
  destruct (Py.split "," (Py.strip line) !! 0%nat); [|done].
  destruct (Py.split "," (Py.strip line) !! 3%nat); [|done].
  by destruct (Py.split "," (Py.strip line) !! 6%nat).
Qed.

Lemma outcome_of_key_inj k1 k2 :
  outcome_of_key k1 = outcome_of_key k2 → k1 = k2.
Proof. destruct k1, k2; simpl; congruence. Qed.

Lemma combos_of_keys l :
  combo_of_line <$> l = outcome_of_key <$> (log_key <$> l).
Proof.
  rewrite <- list_fmap_compose. apply list_fmap_ext.
  intros i x _. apply combo_of_line_key.
Qed.

Lemma combo_elem_key x l :
  combo_of_line x ∈ combo_of_line <$> l ↔ log_key x ∈ log_key <$> l.
Proof.
  rewrite combos_of_keys, combo_of_line_key. split.
  - intros (k & Hk & Hin)%list_elem_of_fmap.
    apply outcome_of_key_inj in Hk. by subst.
  - intros H. apply list_elem_of_fmap. by eexists.
Qed.

Lemma is_last_of_key_combo log ix :
  is_last_of_key log ix ↔ is_last_of_combo log ix.
Proof. unfold is_last_of_key, is_last_of_combo. by rewrite combo_elem_key. Qed.

Lemma parseable_has_key line : parseable line → is_Some (log_key line).
Proof.
  unfold parseable, log_key. intros H.
  destruct (lookup_lt_is_Some_2 (Py.split "," (Py.strip line)) 0 ltac:(lia))
    as [a ->].
  destruct (lookup_lt_is_Some_2 (Py.split "," (Py.strip line)) 3 ltac:(lia))
    as [b ->].
  destruct (lookup_lt_is_Some_2 (Py.split "," (Py.strip line)) 6 ltac:(lia))
    as [c ->].
  by eexists.
Qed.

End dedup_facts.

(** C3 (the code departs from the claim): a line with fewer than seven
    comma-separated fields is not retained.  Indexing its fields raises
    [IndexError], which the [except ValueError] clause of the loop does
    not catch, so the pass stops with that exception and rewrites
    nothing. *)
Theorem dedup_short_line_raises (log : list string) :
  Exists (λ line, ¬ parseable line) log →
  remove_earlier_duplicate_trips log = Raise IndexError.
Proof.
  intros H. unfold remove_earlier_duplicate_trips.
  rewrite dedup_loop_unparseable; [done|].
  apply Exists_exists in H as (x & Hx & Hp).
  apply Exists_exists. exists x. split; [by apply elem_of_reverse | done].
Qed.

Lemma dedup_short_line_raises_witness :
  Exists (λ line, ¬ parseable line) [header_line; "a,b,c" +:+ nl]
  ∧ remove_earlier_duplicate_trips [header_line; "a,b,c" +:+ nl]
    = Raise IndexError.
Proof.
  assert (Exists (λ line, ¬ parseable line) [header_line; "a,b,c" +:+ nl]) as H.
  { apply Exists_cons. right. apply Exists_cons. left.
    unfold parseable. vm_compute. lia. }
  split; [exact H | exact (dedup_short_line_raises _ H)].
Defined.

(** C4: on a log whose lines all carry the seven fields of an arrival,
    the Deduplicator completes, and its output is told by the keys of
    the lines alone, the key of a line being its fields 0, 3 and 6
    (trip_id, stop_id, scheduled_start_date): every retained line has a
    key and no two retained lines share one; the retained lines are
    exactly the lines of the log whose key no later line carries, in the
    order of the log; and every key of the log is still carried by a
    retained line. *)
Theorem dedup_keeps_last_of_each_key (log : list string) :
  Forall parseable log →
  ∃ out,
    remove_earlier_duplicate_trips log = Ok out
    ∧ Forall (λ line, is_Some (log_key line)) out
    ∧ NoDup (log_key <$> out)
    ∧ out = (filter (is_last_of_key log) (imap pair log)).*2
    ∧ out `sublist_of` log
    ∧ ∀ line, line ∈ log → log_key line ∈ log_key <$> out.
Proof.
  intros H. exists (keep_last log).
  split; [by apply dedup_parseable|].
  split.
  { apply Forall_forall. intros line Hin. apply parseable_has_key.
    eapply Forall_forall; [exact H|].
    eapply elem_of_sublist; [exact Hin | apply keep_last_sublist]. }
  split.
  { apply (NoDup_fmap_1 outcome_of_key). rewrite <- combos_of_keys.
    apply keep_last_NoDup. }
  split.
  { rewrite keep_last_filter. f_equal. apply list_filter_iff.
    intros ix. symmetry. apply is_last_of_key_combo. }
  split; [apply keep_last_sublist|].
  intros line Hin. apply combo_elem_key. by apply keep_last_combos.
Qed.

Lemma dedup_keeps_last_of_each_key_witness :
  Forall parseable sample_log_stops
  ∧ remove_earlier_duplicate_trips sample_log_stops
    = Ok [ header_line;
           "9001,2023-12-11T06:30,'FORBES',7117,61A,OUTBOUND,2023-12-11,06:35,06:50" +:+ nl;
           "9001,2023-12-11T06:31,'FIFTH',1177,61A,OUTBOUND,2023-12-11,06:35,06:45" +:+ nl;
           "9001,2023-12-12T06:30,'FIFTH',1177,61A,OUTBOUND,2023-12-12,06:35,06:46" +:+ nl ]
  ∧ ∃ out,
      remove_earlier_duplicate_trips sample_log_stops = Ok out
      ∧ Forall (λ line, is_Some (log_key line)) out
      ∧ NoDup (log_key <$> out)
      ∧ out = (filter (is_last_of_key sample_log_stops)
                 (imap pair sample_log_stops)).*2
      ∧ out `sublist_of` sample_log_stops
      ∧ ∀ line, line ∈ sample_log_stops → log_key line ∈ log_key <$> out.
Proof.
  assert (Forall parseable sample_log_stops) as H by by_computation.
  split; [exact H|]. split; [by_computation|].
  exact (dedup_keeps_last_of_each_key sample_log_stops H).
Defined.

(** C5: the Deduplicator is idempotent.  Whenever it turns a log into
    [out], running it on [out] completes and yields [out] again. *)
Theorem dedup_idempotent (log out : list string) :
  remove_earlier_duplicate_trips log = Ok out →
  remove_earlier_duplicate_trips out = Ok out.
Proof.
  intros H. pose proof (dedup_Ok_parseable _ _ H) as Hp.
  rewrite (dedup_parseable _ Hp) in H. injection H as <-.
  rewrite dedup_parseable.
  - f_equal. apply keep_last_id, keep_last_NoDup.
  - eapply Forall_forall. intros x Hx.
    eapply Forall_forall in Hp; [done|].
    by eapply elem_of_sublist; [|apply keep_last_sublist].
Qed.

Lemma dedup_idempotent_witness :
  remove_earlier_duplicate_trips sample_log
    = Ok [ header_line;
           "9002,2023-12-11T06:30,'FIFTH',1177,71B,INBOUND,2023-12-11,06:20,06:47" +:+ nl;
           "9001,2023-12-11T06:31,'FIFTH',1177,61A,OUTBOUND,2023-12-11,06:35,06:45" +:+ nl ]
  ∧ remove_earlier_duplicate_trips
      [ header_line;
        "9002,2023-12-11T06:30,'FIFTH',1177,71B,INBOUND,2023-12-11,06:20,06:47" +:+ nl;
        "9001,2023-12-11T06:31,'FIFTH',1177,61A,OUTBOUND,2023-12-11,06:35,06:45" +:+ nl ]
    = Ok [ header_line;
           "9002,2023-12-11T06:30,'FIFTH',1177,71B,INBOUND,2023-12-11,06:20,06:47" +:+ nl;
           "9001,2023-12-11T06:31,'FIFTH',1177,61A,OUTBOUND,2023-12-11,06:35,06:45" +:+ nl ].
Proof.
  assert (remove_earlier_duplicate_trips sample_log
    = Ok [ header_line;
           "9002,2023-12-11T06:30,'FIFTH',1177,71B,INBOUND,2023-12-11,06:20,06:47" +:+ nl;
           "9001,2023-12-11T06:31,'FIFTH',1177,61A,OUTBOUND,2023-12-11,06:35,06:45" +:+ nl ])
    as H by (vm_compute; reflexivity).
  split; [exact H | exact (dedup_idempotent _ _ H)].
Defined.

(** C10: on a log with no line at all the Schedule Matcher fails on
    [lines[0]] with [IndexError], whatever the timetable, whereas the
    Deduplicator completes and leaves the log empty. *)
Theorem empty_log_matcher_raises_dedup_completes (schedule : list string) :
  log_scheduled_arrival_times schedule [] = Raise IndexError
  ∧ remove_earlier_duplicate_trips [] = Ok [].
Proof. split; reflexivity. Qed.

(** ** The Schedule Matcher *)

Section matcher_facts.

Implicit Types (lines schedule rows : list string)
  (stop_id route_id direction scheduled_start_time : string).

Lemma first_loop_cons lines route_id direction scheduled_start_time i' rest i :
  first_loop lines route_id direction scheduled_start_time (i' :: rest) i
  = (b ← breaks_at lines route_id direction scheduled_start_time i';
     if b : bool then Ok (Some i')
     else first_loop lines route_id direction scheduled_start_time rest
            (Some i')).
Proof. reflexivity. Qed.

Lemma second_loop_cons lines stop_id j rest :
  second_loop lines stop_id (j :: rest)
  = (l ← Py.index lines j;
     stop6 ← field 6 l;
     if decide (stop6 = stop_id) then
       stop4 ← field 4 l; t ← format_arrival stop4; Ok (Some t)
     else second_loop lines stop_id rest).
Proof. reflexivity. Qed.

(** Without a [break] the loop variable ends on the last index. *)
Lemma first_loop_no_break lines route_id direction scheduled_start_time
    (a n : nat) i :
  (∀ k, (a ≤ k < a + n)%nat →
     breaks_at lines route_id direction scheduled_start_time k = Ok false) →
  first_loop lines route_id direction scheduled_start_time (seq a n) i
  = Ok (if decide (n = 0%nat) then i else Some (a + n - 1)%nat).
Proof.
  revert a i. induction n as [|n IH]; intros a i H; [done|].
  change (seq a (S n)) with (a :: seq (S a) n).
  rewrite first_loop_cons, H by lia. simpl.
  rewrite IH by (intros; apply H; lia).
  destruct n; simpl; do 2 f_equal; lia.
Qed.

Lemma first_loop_break lines route_id direction scheduled_start_time
    (a n : nat) init i :
  (a ≤ i < a + n)%nat →
  breaks_at lines route_id direction scheduled_start_time i = Ok true →
  (∀ k, (a ≤ k < i)%nat →
     breaks_at lines route_id direction scheduled_start_time k = Ok false) →
  first_loop lines route_id direction scheduled_start_time (seq a n) init
  = Ok (Some i).
Proof.
  revert a init. induction n as [|n IH]; intros a init Hi Hb Hk; [lia|].
  change (seq a (S n)) with (a :: seq (S a) n). rewrite first_loop_cons.
  destruct (decide (a = i)) as [->|Hne].
  - by rewrite Hb.
  - rewrite Hk by lia. simpl. apply IH; [lia | done |].
    intros; apply Hk; lia.
Qed.

Lemma first_loop_trip_start schedule route_id direction scheduled_start_time i :
  trip_start schedule route_id direction scheduled_start_time i →
  first_loop schedule route_id direction scheduled_start_time
    (range 1 (length schedule)) None = Ok (Some i).
Proof.
  intros (Hi & Hb & Hk). unfold range.
  apply first_loop_break; [lia | done | done].
Qed.

Lemma first_loop_no_trip_start schedule route_id direction scheduled_start_time :
  no_trip_start schedule route_id direction scheduled_start_time →
  first_loop schedule route_id direction scheduled_start_time
    (range 1 (length schedule)) None = Ok (Some (length schedule - 1)%nat).
Proof.
  intros (Hlen & Hk). unfold range.
  rewrite first_loop_no_break by (intros; apply Hk; lia).
  rewrite decide_False by lia. do 2 f_equal. lia.
Qed.

(** The second loop finds nothing in a range free of [stop_id]. *)
Lemma second_loop_absent lines stop_id (a n : nat) :
  (a + n ≤ length lines)%nat →
  stop_absent_between lines stop_id (a - 1) (a + n) →
  (1 ≤ a)%nat →
  second_loop lines stop_id (seq a n) = Ok None.
Proof.
  revert a. induction n as [|n IH]; intros a Hlen Habs Ha; [done|].
  change (seq a (S n)) with (a :: seq (S a) n). rewrite second_loop_cons.
  destruct (index_lt lines a) as (l & -> & Hl); [lia|]. simpl.
  destruct (Habs a l) as (x & -> & Hx); [lia | done |]. simpl.
  rewrite decide_False by done.
  apply IH; [lia | | lia].
  intros k l' Hk Hl'. apply (Habs k l'); [lia | done].
Qed.

(** The second loop returns at the first line that carries [stop_id]. *)
Lemma second_loop_found lines stop_id (a n j : nat) l stop4 :
  (a ≤ j < a + n)%nat → (1 ≤ a)%nat →
  lines !! j = Some l →
  field 6 l = Ok stop_id →
  field 4 l = Ok stop4 →
  stop_absent_between lines stop_id (a - 1) j →
  second_loop lines stop_id (seq a n)
  = (t ← format_arrival stop4; Ok (Some t)).
Proof.
  revert a. induction n as [|n IH]; intros a Hj Ha Hl H6 H4 Habs; [lia|].
  change (seq a (S n)) with (a :: seq (S a) n). rewrite second_loop_cons.
  destruct (decide (a = j)) as [->|Hne].
  - rewrite (index_Ok _ _ _ Hl). simpl. rewrite H6. simpl.
    rewrite decide_True by done. by rewrite H4.
  - assert (a < length lines)%nat as Hlt.
    { apply lookup_lt_Some in Hl. lia. }
    destruct (index_lt lines a Hlt) as (l' & -> & Hl'). simpl.
    destruct (Habs a l') as (x & -> & Hx); [lia | done |]. simpl.
    rewrite decide_False by done.
    apply IH; [lia | lia | done | done | done |].
    intros k l'' Hk Hl''. apply (Habs k l''); [lia | done].
Qed.

(** What a result of the second loop tells about the lines scanned. *)
Lemma second_loop_inv lines stop_id (a n : nat) r :
  (1 ≤ a)%nat →
  second_loop lines stop_id (seq a n) = Ok r →
  match r with
  | None => stop_absent_between lines stop_id (a - 1) (a + n)
  | Some t =>
      ∃ j l stop4,
        (a ≤ j < a + n)%nat ∧ lines !! j = Some l
        ∧ field 6 l = Ok stop_id ∧ field 4 l = Ok stop4
        ∧ format_arrival stop4 = Ok t
        ∧ stop_absent_between lines stop_id (a - 1) j
  end.
Proof.
  revert a. induction n as [|n IH]; intros a Ha H.
  { injection H as <-. intros k l Hk. lia. }
  change (seq a (S n)) with (a :: seq (S a) n) in H.
  rewrite second_loop_cons in H.
  unfold Py.index at 1 in H.
  destruct (lines !! a) as [l|] eqn:Hl; [|done]. simpl in H.
  destruct (field 6 l) as [x|] eqn:H6; [|done]. simpl in H.
  destruct (decide (x = stop_id)) as [->|Hx].
  - destruct (field 4 l) as [stop4|] eqn:H4; [|done]. simpl in H.
    destruct (format_arrival stop4) as [t|] eqn:Ht; [|done].
    injection H as <-. exists a, l, stop4.
    repeat split; try done; try lia. intros k l' Hk. lia.
  - apply IH in H; [|lia]. destruct r as [t|].
    + destruct H as (j & l' & stop4 & Hj & Hl' & H6' & H4' & Ht & Habs).
      exists j, l', stop4. repeat split; try done; try lia.
      intros k l'' Hk Hl''.
      destruct (decide (k = a)) as [->|Hka].
      * simplify_eq. by exists x.
      * apply (Habs k l''); [lia | done].
    + intros k l' Hk Hl'.
      destruct (decide (k = a)) as [->|Hka].
      * simplify_eq. by exists x.
      * apply (H k l'); [lia | done].
Qed.

End matcher_facts.

Section matcher_row_facts.

Implicit Types (schedule rows : list string)
  (stop_id route_id direction scheduled_start_time : string).

(** The value of the loop variable lies in the range, once bound. *)
Lemma first_loop_range lines route_id direction scheduled_start_time
    (a n : nat) init i :
  first_loop lines route_id direction scheduled_start_time (seq a n) init
    = Ok (Some i) →
  init = Some i ∨ (a ≤ i < a + n)%nat.
Proof.
  revert a init. induction n as [|n IH]; intros a init H.
  { left. by injection H. }
  change (seq a (S n)) with (a :: seq (S a) n) in H.
  rewrite first_loop_cons in H.
  destruct (breaks_at _ _ _ _ a) as [[|]|]; simpl in H; [| |done].
  - injection H as <-. right. lia.
  - apply IH in H as [H|H]; [injection H as <-|]; right; lia.
Qed.

Lemma find_unmatched schedule stop_id route_id direction scheduled_start_time :
  unmatched schedule stop_id route_id direction scheduled_start_time →
  find_scheduled_arrival_time schedule stop_id route_id direction
    scheduled_start_time = Ok None.
Proof.
  unfold find_scheduled_arrival_time.
  intros [Hno | (i & Hstart & Habs)]; simpl.
  - rewrite (first_loop_no_trip_start _ _ _ _ Hno). simpl. unfold range.
    replace (length schedule - (length schedule - 1 + 1))%nat with 0%nat; [done|].
    destruct Hno. lia.
  - rewrite (first_loop_trip_start _ _ _ _ _ Hstart). simpl. unfold range.
    destruct Hstart as (Hi & _).
    apply second_loop_absent; [lia | | lia].
    replace (i + 1 - 1)%nat with i by lia.
    by replace (i + 1 + (length schedule - (i + 1)))%nat
      with (length schedule) by lia.
Qed.

(** The body of the loop on a row that does not have ten fields. *)
Lemma match_row_lookup schedule row stop_id route_id direction
    scheduled_start_time :
  length (Py.split "," (Py.strip row)) ≠ 10%nat →
  field 3 row = Ok stop_id → field 4 row = Ok route_id →
  field 5 row = Ok direction → field 7 row = Ok scheduled_start_time →
  match_row schedule row
  = (t ← find_scheduled_arrival_time schedule stop_id route_id direction
           scheduled_start_time;
     match t with
     | Some t => Ok (Some (Py.strip row +:+ "," +:+ t +:+ nl))
     | None => Ok None
     end).
Proof.
  unfold match_row, field. intros Hlen -> -> -> ->.
  by rewrite decide_False by done.
Qed.

Lemma match_row_ten schedule row :
  length (Py.split "," (Py.strip row)) = 10%nat →
  match_row schedule row = Ok (Some (Py.strip row +:+ nl)).
Proof. unfold match_row. intros H. by rewrite decide_True by done. Qed.

(** What one iteration can append. *)
Lemma match_row_shape schedule row a :
  match_row schedule row = Ok a →
  if decide (length (Py.split "," (Py.strip row)) = 10%nat)
  then a = Some (Py.strip row +:+ nl)
  else a = None ∨ ∃ t, a = Some (Py.strip row +:+ "," +:+ t +:+ nl).
Proof.
  unfold match_row. case_decide as Hlen.
  - by intros [= <-].
  - destruct (Py.index _ 3); simpl; [|done].
    destruct (Py.index _ 4); simpl; [|done].
    destruct (Py.index _ 5); simpl; [|done].
    destruct (Py.index _ 7); simpl; [|done].
    destruct (find_scheduled_arrival_time _ _ _ _ _) as [[t|]|]; simpl;
      [| |done].
    + intros [= <-]. right. by exists t.
    + intros [= <-]. by left.
Qed.

Lemma matcher_loop_cons schedule row rest new_lines :
  matcher_loop schedule (row :: rest) new_lines
  = (appended ← match_row schedule row;
     matcher_loop schedule rest (new_lines ++ option_list appended)).
Proof.
  simpl. destruct (match_row schedule row) as [[l|]|]; simpl; [done| |done].
  by rewrite app_nil_r.
Qed.

(** A row for which nothing is appended leaves no trace. *)
Lemma matcher_loop_dropped schedule pre row post new_lines :
  match_row schedule row = Ok None →
  matcher_loop schedule (pre ++ row :: post) new_lines
  = matcher_loop schedule (pre ++ post) new_lines.
Proof.
  intros Hrow. revert new_lines.
  induction pre as [|r pre IH]; intros new_lines.
  - simpl. by rewrite Hrow.
  - rewrite <- !app_comm_cons, !matcher_loop_cons.
    destruct (match_row schedule r) as [a|]; simpl; [apply IH | done].
Qed.

(** The loop appends, row after row, what each iteration yields. *)
Lemma matcher_loop_inv schedule rows new_lines out :
  matcher_loop schedule rows new_lines = Ok out →
  ∃ appended,
    Forall2 (λ row a, match_row schedule row = Ok a) rows appended
    ∧ out = new_lines ++ omap id appended.
Proof.
  revert new_lines. induction rows as [|row rows IH]; intros new_lines H.
  - injection H as <-. exists []. split; [constructor|]. by rewrite app_nil_r.
  - rewrite matcher_loop_cons in H.
    destruct (match_row schedule row) as [a|] eqn:Hrow; [|done]. simpl in H.
    apply IH in H as (appended & HF & ->).
    exists (a :: appended). split; [by constructor|].
    rewrite <- app_assoc. f_equal. by destruct a.
Qed.

End matcher_row_facts.

(** C2, as the code has it: a nine-field row for which the first loop
    finds no trip start, or finds one at line [i] while no line after
    [i] up to the end of the timetable carries the row's stop_id, is
    dropped: the iteration appends nothing and the rewritten log is the
    one the pass writes for the log without that row.  The timetable has
    at least one data line and the lines scanned have the fields read. *)
Theorem unmatched_row_dropped (schedule : list string)
    (first : string) (pre : list string) (row : string) (post : list string)
    (stop_id route_id direction scheduled_start_time : string) :
  length (Py.split "," (Py.strip row)) = 9%nat →
  field 3 row = Ok stop_id → field 4 row = Ok route_id →
  field 5 row = Ok direction → field 7 row = Ok scheduled_start_time →
  unmatched schedule stop_id route_id direction scheduled_start_time →
  match_row schedule row = Ok None
  ∧ log_scheduled_arrival_times schedule (first :: pre ++ row :: post)
    = log_scheduled_arrival_times schedule (first :: pre ++ post).
Proof.
  intros Hlen H3 H4 H5 H7 Hun.
  assert (match_row schedule row = Ok None) as Hrow.
  { assert (length (Py.split "," (Py.strip row)) ≠ 10%nat) as Hne by lia.
  rewrite (match_row_lookup schedule row _ _ _ _ Hne H3 H4 H5 H7).
    by rewrite (find_unmatched _ _ _ _ _ Hun). }
  split; [done|].
  unfold log_scheduled_arrival_times. simpl. rewrite !drop_0.
  by apply matcher_loop_dropped.
Qed.

Lemma unmatched_row_dropped_witness :
  match_row schedule_other_stops observation = Ok None
  ∧ log_scheduled_arrival_times schedule_other_stops
      (header_line :: [] ++ observation :: [])
    = log_scheduled_arrival_times schedule_other_stops (header_line :: [] ++ []).
Proof.
  apply (unmatched_row_dropped schedule_other_stops header_line [] observation []
           "1177" "61A" "OUTBOUND" "06:35");
    try (vm_compute; reflexivity).
  right. exists 1%nat. split.
  - split; [vm_compute; lia|]. split; [vm_compute; reflexivity|].
    intros k Hk. lia.
  - intros k l Hk Hl. change (length schedule_other_stops) with 3%nat in Hk.
    assert (k = 2%nat) as -> by lia. injection Hl as <-.
    exists "200". split; [vm_compute; reflexivity | discriminate].
Defined.

(** C2, refuted as stated.  In [schedule_two_trips] the first loop stops
    on line 1, the first stop of trip T1; the block of T1 is that single
    line and its stop_id is 100, so no line of the block carries stop
    1177.  The second loop runs on into line 2, which belongs to trip T2
    of route 71B, and the row is enriched with the 07:00 of that trip
    instead of being dropped. *)
Lemma scan_crosses_block_end :
  trip_start schedule_two_trips "61A" "OUTBOUND" "06:35" 1
  ∧ trip_block schedule_two_trips 1
    = ["T1,61A,WK,0,06:35:00,06:35:00,100,FORBES,40.44,-79.95" +:+ nl]
  ∧ Forall (λ l, field 6 l ≠ Ok "1177") (trip_block schedule_two_trips 1)
  ∧ log_scheduled_arrival_times schedule_two_trips [header_line; observation]
    = Ok [ header_line;
           "9001,2023-12-11T06:31,'FIFTH',1177,61A,OUTBOUND,2023-12-11,06:35,06:45,07:00"
           +:+ nl ].
Proof.
  split.
  { split; [vm_compute; lia|]. split; [vm_compute; reflexivity|].
    intros k Hk. lia. }
  split; [vm_compute; reflexivity|].
  split; [|vm_compute; reflexivity].
  by_computation.
Qed.

(** C7, as the code has it: when the pass completes, the output is the
    first line of the log, verbatim, followed by what the rows yield, in
    the order of the rows.  A row with ten fields yields itself stripped
    of surrounding whitespace and ended by a newline, hence itself when
    it already has that form; any other row yields nothing or its
    stripped text with one more field. *)
Theorem matcher_output_shape (schedule history out : list string) :
  log_scheduled_arrival_times schedule history = Ok out →
  ∃ first rows appended,
    history = first :: rows
    ∧ out = first :: omap id appended
    ∧ Forall2 (λ row a,
        match_row schedule row = Ok a
        ∧ if decide (length (Py.split "," (Py.strip row)) = 10%nat)
          then a = Some (Py.strip row +:+ nl)
               ∧ (row = Py.strip row +:+ nl → a = Some row)
          else a = None
               ∨ ∃ t, a = Some (Py.strip row +:+ "," +:+ t +:+ nl))
        rows appended.
Proof.
  unfold log_scheduled_arrival_times. intros H.
  destruct history as [|first rows]; [done|].
  simpl in H. rewrite drop_0 in H.
  apply matcher_loop_inv in H as (appended & HF & ->).
  exists first, rows, appended. split; [done|]. split; [done|].
  eapply Forall2_impl; [exact HF|].
  intros row a Hrow. split; [done|].
  pose proof (match_row_shape _ _ _ Hrow) as Hshape.
  case_decide; [|done]. split; [done|]. intros Heq. congruence.
Qed.

Lemma matcher_output_shape_witness :
  log_scheduled_arrival_times schedule_one_trip
    [ header_line;
      "9002,2023-12-11T06:30,'FIFTH',1177,71B,INBOUND,2023-12-11,06:20,06:47,06:45" +:+ nl;
      observation ]
  = Ok [ header_line;
         "9002,2023-12-11T06:30,'FIFTH',1177,71B,INBOUND,2023-12-11,06:20,06:47,06:45" +:+ nl;
         "9001,2023-12-11T06:31,'FIFTH',1177,61A,OUTBOUND,2023-12-11,06:35,06:45,06:42" +:+ nl ]
  ∧ ∃ first rows appended,
      [ header_line;
        "9002,2023-12-11T06:30,'FIFTH',1177,71B,INBOUND,2023-12-11,06:20,06:47,06:45" +:+ nl;
        observation ] = first :: rows
      ∧ [ header_line;
          "9002,2023-12-11T06:30,'FIFTH',1177,71B,INBOUND,2023-12-11,06:20,06:47,06:45" +:+ nl;
          "9001,2023-12-11T06:31,'FIFTH',1177,61A,OUTBOUND,2023-12-11,06:35,06:45,06:42" +:+ nl ]
        = first :: omap id appended
      ∧ Forall2 (λ row a,
          match_row schedule_one_trip row = Ok a
          ∧ if decide (length (Py.split "," (Py.strip row)) = 10%nat)
            then a = Some (Py.strip row +:+ nl)
                 ∧ (row = Py.strip row +:+ nl → a = Some row)
            else a = None
                 ∨ ∃ t, a = Some (Py.strip row +:+ "," +:+ t +:+ nl))
          rows appended.
Proof.
  assert (log_scheduled_arrival_times schedule_one_trip
    [ header_line;
      "9002,2023-12-11T06:30,'FIFTH',1177,71B,INBOUND,2023-12-11,06:20,06:47,06:45" +:+ nl;
      observation ]
  = Ok [ header_line;
         "9002,2023-12-11T06:30,'FIFTH',1177,71B,INBOUND,2023-12-11,06:20,06:47,06:45" +:+ nl;
         "9001,2023-12-11T06:31,'FIFTH',1177,61A,OUTBOUND,2023-12-11,06:35,06:45,06:42" +:+ nl ])
    as H by (vm_compute; reflexivity).
  split; [exact H | exact (matcher_output_shape _ _ _ H)].
Defined.

(** C7, refuted as stated.  A ten-field row that ends the file without
    a newline does not pass through unchanged: the pass writes it with a
    newline added. *)
Lemma ten_field_row_rewritten :
  length (Py.split ","
    (Py.strip "9002,2023-12-11T06:30,'FIFTH',1177,71B,INBOUND,2023-12-11,06:20,06:47,06:45"))
  = 10%nat
  ∧ log_scheduled_arrival_times schedule_one_trip
      [ header_line;
        "9002,2023-12-11T06:30,'FIFTH',1177,71B,INBOUND,2023-12-11,06:20,06:47,06:45" ]
    = Ok [ header_line;
           "9002,2023-12-11T06:30,'FIFTH',1177,71B,INBOUND,2023-12-11,06:20,06:47,06:45" +:+ nl ]
  ∧ "9002,2023-12-11T06:30,'FIFTH',1177,71B,INBOUND,2023-12-11,06:20,06:47,06:45"
    ∉ [ header_line;
        "9002,2023-12-11T06:30,'FIFTH',1177,71B,INBOUND,2023-12-11,06:20,06:47,06:45" +:+ nl ].
Proof.
  split; [vm_compute; reflexivity|]. split; [vm_compute; reflexivity|].
  intros H. apply elem_of_cons in H as [H|H]; [by vm_compute in H|].
  apply elem_of_cons in H as [H|H]; [by vm_compute in H|].
  by apply elem_of_nil in H.
Qed.

(** C9: the second loop starts one line after the index [i] on which
    the first loop stopped.  Whenever the lookup returns, either it
    returns nothing and no line after [i] carries the stop_id, or the
    time it returns is that of the first line strictly after [i] that
    carries the stop_id; line [i] itself is never the source. *)
Theorem scan_starts_after_trip_start (schedule : list string)
    (stop_id route_id direction scheduled_start_time : string)
    (r : option string) :
  find_scheduled_arrival_time schedule stop_id route_id direction
    scheduled_start_time = Ok r →
  ∃ i,
    first_loop schedule route_id direction scheduled_start_time
      (range 1 (length schedule)) None = Ok (Some i)
    ∧ (1 ≤ i < length schedule)%nat
    ∧ match r with
      | None => stop_absent_between schedule stop_id i (length schedule)
      | Some t =>
          ∃ j l stop4,
            (i < j < length schedule)%nat ∧ schedule !! j = Some l
            ∧ field 6 l = Ok stop_id ∧ field 4 l = Ok stop4
            ∧ format_arrival stop4 = Ok t
            ∧ stop_absent_between schedule stop_id i j
      end.
Proof.
  unfold find_scheduled_arrival_time. intros H. simpl in H.
  destruct (first_loop _ _ _ _ _ _) as [[i|]|] eqn:Hfirst; [|done|done].
  simpl in H. exists i. split; [done|].
  unfold range in Hfirst.
  apply first_loop_range in Hfirst as [?|Hi]; [done|].
  split; [lia|].
  unfold range in H. apply second_loop_inv in H; [|lia].
  replace (i + 1 - 1)%nat with i in H by lia.
  replace (i + 1 + (length schedule - (i + 1)))%nat
    with (length schedule) in H by lia.
  destruct r as [t|]; [|done].
  destruct H as (j & l & stop4 & Hj & H'). exists j, l, stop4.
  split; [lia | done].
Qed.

Lemma scan_starts_after_trip_start_witness :
  find_scheduled_arrival_time schedule_loop "1177" "61A" "OUTBOUND" "06:35"
    = Ok (Some "07:10")
  ∧ ∃ i,
      first_loop schedule_loop "61A" "OUTBOUND" "06:35"
        (range 1 (length schedule_loop)) None = Ok (Some i)
      ∧ (1 ≤ i < length schedule_loop)%nat
      ∧ ∃ j l stop4,
          (i < j < length schedule_loop)%nat ∧ schedule_loop !! j = Some l
          ∧ field 6 l = Ok "1177" ∧ field 4 l = Ok stop4
          ∧ format_arrival stop4 = Ok "07:10"
          ∧ stop_absent_between schedule_loop "1177" i j.
Proof.
  assert (find_scheduled_arrival_time schedule_loop "1177" "61A" "OUTBOUND"
            "06:35" = Ok (Some "07:10")) as H by (vm_compute; reflexivity).
  split; [exact H|].
  exact (scan_starts_after_trip_start _ _ _ _ _ _ H).
Defined.

(** ** The Timetable Builder *)

Section timetable_facts.

Import Timetable.

Implicit Types (table : list row4) (d : gmap string row4) (id : string).

(** An id already in the dictionary keeps its row. *)
Lemma dict_keeps table d id row :
  d !! id = Some row → foldl dict_step d table !! id = Some row.
Proof.
  revert d. induction table as [|x table IH]; intros d Hd; [done|].
  simpl. apply IH. unfold dict_step.
  destruct (d !! c0 x) eqn:Hx; [done|].
  rewrite lookup_insert_ne; [done|]. intros Heq. congruence.
Qed.

(** An id absent from the dictionary gets the first row that has it. *)
Lemma dict_first table d id i row :
  d !! id = None → first_with_id table id i row →
  foldl dict_step d table !! id = Some row.
Proof.
  revert d i. induction table as [|x table IH]; intros d i Hd (Hi & Hid & Hmin).
  { by rewrite lookup_nil in Hi. }
  simpl. destruct i as [|i].
  - injection Hi as ->. apply dict_keeps. unfold dict_step.
    rewrite Hid, Hd. apply lookup_insert_eq.
  - apply (IH _ i).
    + unfold dict_step. destruct (d !! c0 x) eqn:Hx; [done|].
      rewrite lookup_insert_ne; [done|]. apply (Hmin 0%nat); [lia | done].
    + split; [done|]. split; [done|].
      intros j row' Hj Hrow'. apply (Hmin (S j)); [lia | done].
Qed.

Lemma widen_row (st : row4) :
  widen st
  = [c0 st; zero; zero; zero; c1 st; c2 st; c3 st; zero; zero; zero].
Proof. reflexivity. Qed.

Lemma enrich_widen (tripsDict stopsDict : gmap string row4) (st : row4) :
  enrich tripsDict stopsDict (widen st)
  = [ c0 st;
      from_option c1 zero (tripsDict !! c0 st);
      from_option c2 zero (tripsDict !! c0 st);
      from_option c3 zero (tripsDict !! c0 st);
      c1 st; c2 st; c3 st;
      from_option c1 zero (stopsDict !! c3 st);
      from_option c2 zero (stopsDict !! c3 st);
      from_option c3 zero (stopsDict !! c3 st) ].
Proof.
  rewrite widen_row. unfold enrich. simpl.
  destruct (tripsDict !! c0 st), (stopsDict !! c3 st); reflexivity.
Qed.

End timetable_facts.

(** C8: first-seen-wins.  For tables of at least two rows, the shape
    [np.loadtxt] turns into a two-dimensional array, the output row of
    every stop_time row keeps its own four columns, and its route_id,
    service_id and direction are those of the first row of the trips
    table that has its trip_id, its stop name, latitude and longitude
    those of the first row of the stops table that has its stop_id. *)
Theorem first_seen_wins (stop_times trips stops : list Timetable.row4)
    (k : nat) (st : Timetable.row4) :
  (2 ≤ length stop_times)%nat → (2 ≤ length trips)%nat →
  (2 ≤ length stops)%nat →
  stop_times !! k = Some st →
  ∃ out_row,
    Timetable.mergeStopTimesAndTrips stop_times trips stops !! S k = Some out_row
    ∧ length out_row = 10%nat
    ∧ out_row !! 0%nat = Some (Timetable.c0 st)
    ∧ out_row !! 4%nat = Some (Timetable.c1 st)
    ∧ out_row !! 5%nat = Some (Timetable.c2 st)
    ∧ out_row !! 6%nat = Some (Timetable.c3 st)
    ∧ (∀ i trip,
         Timetable.first_with_id trips (Timetable.c0 st) i trip →
         out_row !! 1%nat = Some (Timetable.c1 trip)
         ∧ out_row !! 2%nat = Some (Timetable.c2 trip)
         ∧ out_row !! 3%nat = Some (Timetable.c3 trip))
    ∧ (∀ i stop,
         Timetable.first_with_id stops (Timetable.c3 st) i stop →
         out_row !! 7%nat = Some (Timetable.c1 stop)
         ∧ out_row !! 8%nat = Some (Timetable.c2 stop)
         ∧ out_row !! 9%nat = Some (Timetable.c3 stop)).
Proof.
  intros _ _ _ Hk.
  exists (Timetable.enrich (foldl Timetable.dict_step ∅ trips)
            (foldl Timetable.dict_step ∅ stops) (Timetable.widen st)).
  split.
  { unfold Timetable.mergeStopTimesAndTrips, Timetable.readTrips,
      Timetable.readStops, Timetable.readStopTimes.
    simpl. by rewrite !list_lookup_fmap, Hk. }
  rewrite enrich_widen. repeat (split; [reflexivity|]).
  split.
  - intros i trip H. rewrite (dict_first _ _ _ _ _ (lookup_empty _) H). done.
  - intros i stop H. rewrite (dict_first _ _ _ _ _ (lookup_empty _) H). done.
Qed.

Lemma first_seen_wins_witness :
  (2 ≤ length sample_stop_times)%nat ∧ (2 ≤ length sample_trips)%nat
  ∧ (2 ≤ length sample_stops)%nat
  ∧ sample_stop_times !! 1%nat
    = Some (Timetable.mkrow4 "T1" "06:42:00" "06:42:00" "1177")
  ∧ Timetable.first_with_id sample_trips "T1" 0
      (Timetable.mkrow4 "T1" "61A" "WK" "0")
  ∧ Timetable.first_with_id sample_stops "1177" 1
      (Timetable.mkrow4 "1177" "FIFTH" "40.45" "-79.93")
  ∧ Timetable.mergeStopTimesAndTrips sample_stop_times sample_trips sample_stops
      !! 2%nat
    = Some ["T1"; "61A"; "WK"; "0"; "06:42:00"; "06:42:00"; "1177"; "FIFTH";
            "40.45"; "-79.93"]
  ∧ ∃ out_row,
      Timetable.mergeStopTimesAndTrips sample_stop_times sample_trips
        sample_stops !! 2%nat = Some out_row
      ∧ length out_row = 10%nat
      ∧ out_row !! 0%nat = Some "T1"
      ∧ out_row !! 4%nat = Some "06:42:00"
      ∧ out_row !! 5%nat = Some "06:42:00"
      ∧ out_row !! 6%nat = Some "1177"
      ∧ (∀ i trip,
           Timetable.first_with_id sample_trips "T1" i trip →
           out_row !! 1%nat = Some (Timetable.c1 trip)
           ∧ out_row !! 2%nat = Some (Timetable.c2 trip)
           ∧ out_row !! 3%nat = Some (Timetable.c3 trip))
      ∧ (∀ i stop,
           Timetable.first_with_id sample_stops "1177" i stop →
           out_row !! 7%nat = Some (Timetable.c1 stop)
           ∧ out_row !! 8%nat = Some (Timetable.c2 stop)
           ∧ out_row !! 9%nat = Some (Timetable.c3 stop)).
Proof.
  split; [vm_compute; lia|]. split; [vm_compute; lia|].
  split; [vm_compute; lia|]. split; [reflexivity|].
  split.
  { split; [reflexivity|]. split; [reflexivity|]. intros j row' Hj. lia. }
  split.
  { split; [reflexivity|]. split; [reflexivity|].
    intros j row' Hj Hrow'. assert (j = 0%nat) as -> by lia.
    injection Hrow' as <-. discriminate. }
  split; [vm_compute; reflexivity|].
  apply (first_seen_wins sample_stop_times sample_trips sample_stops 1
           (Timetable.mkrow4 "T1" "06:42:00" "06:42:00" "1177"));
    [vm_compute; lia | vm_compute; lia | vm_compute; lia | reflexivity].
Defined.

(** ** Text: splitting, digits, clock times *)

Section text_facts.

Implicit Types (c sep : ascii) (w rest : string).

Lemma split_nonempty sep (s : string) : Py.split sep s ≠ [].
Proof.
  destruct s as [|c s]; simpl; [done|].
  case_decide; [done|]. by destruct (Py.split sep s).
Qed.

(** A word free of the separator is the first piece of what follows
    it. *)
Lemma split_app_sep sep w rest :
  has_char sep w = false →
  Py.split sep (w +:+ String sep rest) = w :: Py.split sep rest.
Proof.
  induction w as [|c w IH]; intros H.
  - change ("" +:+ String sep rest) with (String sep rest). simpl.
    by rewrite decide_True.
  - change (String c w +:+ String sep rest)
      with (String c (w +:+ String sep rest)).
    simpl in H. apply orb_false_iff in H as [Hc Hw].
    apply bool_decide_eq_false in Hc.
    simpl. rewrite decide_False by done. by rewrite IH.
Qed.

Lemma split_app_sep1 sep w rest :
has_char sep w = false →
Py.split sep (w +:+ String sep "" +:+ rest) = w :: Py.split sep rest.
Proof. apply split_app_sep. Qed.

Lemma split_no_sep sep w : has_char sep w = false → Py.split sep w = [w].
Proof.
  induction w as [|c w IH]; intros H; [done|].
  simpl in H. apply orb_false_iff in H as [Hc Hw].
  apply bool_decide_eq_false in Hc.
  simpl. rewrite decide_False by done. by rewrite IH.
Qed.

(** Facts about the numbers below one hundred, checked one by one. *)
Lemma below_100 (P : Z → Prop) `{∀ n, Decision (P n)} :
  bool_decide (Forall P (seqZ 0 100)) = true →
  ∀ n, 0 ≤ n < 100 → P n.
Proof.
  intros Hb n Hn. apply bool_decide_eq_true_1 in Hb.
  rewrite Forall_seqZ in Hb. apply Hb. lia.
Qed.

Lemma pad2_no_colon n : 0 ≤ n < 100 → has_char ":" (Num.pad2 n) = false.
Proof. revert n. refine (below_100 _ _). vm_compute. reflexivity. Qed.

Lemma pad2_no_space n : 0 ≤ n < 100 → has_char " " (Num.pad2 n) = false.
Proof. revert n. refine (below_100 _ _). vm_compute. reflexivity. Qed.

Lemma digits12_pad2 n : 0 ≤ n < 100 → Datetime.digits12 (Num.pad2 n) = Some n.
Proof. revert n. refine (below_100 _ _). vm_compute. reflexivity. Qed.

Lemma int_pad2 n : 0 ≤ n < 100 → Num.int (Num.pad2 n) = Ok n.
Proof. revert n. refine (below_100 _ _). vm_compute. reflexivity. Qed.

Lemma str_no_colon n : 0 ≤ n < 100 → has_char ":" (Num.str n) = false.
Proof. revert n. refine (below_100 _ _). vm_compute. reflexivity. Qed.

Lemma digits12_str n : 0 ≤ n < 100 → Datetime.digits12 (Num.str n) = Some n.
Proof. revert n. refine (below_100 _ _). vm_compute. reflexivity. Qed.

Lemma split_clock (a : string) m s :
  has_char ":" a = false → 0 ≤ m < 100 → 0 ≤ s < 100 →
  Py.split ":" (a +:+ ":" +:+ Num.pad2 m +:+ ":" +:+ Num.pad2 s)
  = [a; Num.pad2 m; Num.pad2 s].
Proof.
  intros Ha Hm Hs.
  rewrite split_app_sep1 by done.
  rewrite split_app_sep1 by by apply pad2_no_colon.
  by rewrite split_no_sep by by apply pad2_no_colon.
Qed.

(** [strptime] on a two-digit clock time. *)
Lemma strptime_HMS_clock h m s :
  0 ≤ h < 100 → 0 ≤ m < 60 → 0 ≤ s < 60 →
  Datetime.strptime_HMS (clock h m s)
  = if decide (h ≤ 23) then Ok (h, m) else Raise ValueError.
Proof.
  intros Hh Hm Hs. unfold Datetime.strptime_HMS, clock.
  rewrite split_clock by (try apply pad2_no_colon; lia).
  rewrite !digits12_pad2 by lia.
  destruct (decide (h ≤ 23)).
  - by rewrite decide_True by lia.
  - by rewrite decide_False by lia.
Qed.

(** The arrival time the Matcher appends for a two-digit clock time
    below 48 hours: the hour modulo 24 and the minute. *)
Lemma format_arrival_clock h m s :
  0 ≤ h < 48 → 0 ≤ m < 60 → 0 ≤ s < 60 →
  format_arrival (clock h m s)
  = Ok (Datetime.strftime_HM (h `mod` 24, m)).
Proof.
  intros Hh Hm Hs. unfold format_arrival.
  rewrite strptime_HMS_clock by lia.
  destruct (decide (h ≤ 23)) as [Hlt|Hge]; frozen_cbn.
  - by rewrite Z.mod_small by lia.
  - unfold clock.
    rewrite split_clock by (try apply pad2_no_colon; lia). frozen_cbn.
    rewrite int_pad2 by lia. frozen_cbn.
    change (Py.join ":" [Num.str (h - 24); Num.pad2 m; Num.pad2 s])
      with (Num.str (h - 24) +:+ ":" +:+ Num.pad2 m +:+ ":" +:+ Num.pad2 s).
    unfold Datetime.strptime_HMS.
    rewrite split_clock by (try apply str_no_colon; lia).
    rewrite digits12_str, !digits12_pad2 by lia.
    rewrite (decide_True (P := ValueError = ValueError)) by done.
    rewrite decide_True by lia. frozen_cbn.
    do 3 f_equal. rewrite <- (Z.mod_unique_pos h 24 1 (h - 24)); lia.
Qed.

(** [int] accepts blanks around a number, and rejects the separators
    FS to US that [str.strip] would remove. *)
Lemma int_blanks :
  Num.int (" 23700" +:+ nl) = Ok 23700
  ∧ Num.int (String "028" "23700") = Raise ValueError
  ∧ Py.strip (String "028" "23700") = "23700".
Proof. by vm_compute. Qed.

End text_facts.

Section matcher_found_facts.

Lemma find_matched (schedule : list string)
    (stop_id route_id direction scheduled_start_time : string)
    (i j : nat) (l stop4 : string) :
  trip_start schedule route_id direction scheduled_start_time i →
  (i < j)%nat → schedule !! j = Some l →
  field 6 l = Ok stop_id → field 4 l = Ok stop4 →
  stop_absent_between schedule stop_id i j →
  find_scheduled_arrival_time schedule stop_id route_id direction
    scheduled_start_time
  = (t ← format_arrival stop4; Ok (Some t)).
Proof.
  intros Hstart Hij Hl H6 H4 Habs. unfold find_scheduled_arrival_time. simpl.
  rewrite (first_loop_trip_start _ _ _ _ _ Hstart). simpl. unfold range.
  pose proof (lookup_lt_Some _ _ _ Hl) as Hlen.
  apply (second_loop_found _ _ _ _ j l); try done; try lia.
  by replace (i + 1 - 1)%nat with i by lia.
Qed.

End matcher_found_facts.

(** C6, as the code has it: when the first loop leaves through a
    [break] at line [i] (the first line that matches route, direction and
    start-time prefix and is line 1 or follows a line of another route),
    and the first line after [i] that carries the row's stop_id has the
    arrival time hh:mm:ss with hh below 48, the nine-field row is
    enriched with the hour modulo 24 and the minute, two digits each. *)
Theorem matched_row_enriched (schedule : list string) (row : string)
    (stop_id route_id direction scheduled_start_time : string)
    (i j : nat) (l : string) (h m s : Z) :
  length (Py.split "," (Py.strip row)) = 9%nat →
  field 3 row = Ok stop_id → field 4 row = Ok route_id →
  field 5 row = Ok direction → field 7 row = Ok scheduled_start_time →
  trip_start schedule route_id direction scheduled_start_time i →
  (i < j)%nat → schedule !! j = Some l →
  field 6 l = Ok stop_id →
  stop_absent_between schedule stop_id i j →
  field 4 l = Ok (clock h m s) →
  0 ≤ h < 48 → 0 ≤ m < 60 → 0 ≤ s < 60 →
  match_row schedule row
  = Ok (Some (Py.strip row +:+ "," +:+ Num.pad2 (h `mod` 24) +:+ ":"
              +:+ Num.pad2 m +:+ nl)).
Proof.
  intros Hlen H3 H4 H5 H7 Hstart Hij Hl H6 Habs Hclock Hh Hm Hs.
  assert (length (Py.split "," (Py.strip row)) ≠ 10%nat) as Hne by lia.
  rewrite (match_row_lookup schedule row _ _ _ _ Hne H3 H4 H5 H7).
  rewrite (find_matched _ _ _ _ _ _ _ _ _ Hstart Hij Hl H6 Hclock Habs).
  by rewrite format_arrival_clock by lia.
Qed.

Lemma matched_row_enriched_witness :
  match_row schedule_one_trip observation
  = Ok (Some (Py.strip observation +:+ "," +:+ Num.pad2 (6 `mod` 24) +:+ ":"
              +:+ Num.pad2 42 +:+ nl))
  ∧ Py.strip observation +:+ "," +:+ Num.pad2 (6 `mod` 24) +:+ ":"
      +:+ Num.pad2 42 +:+ nl
    = "9001,2023-12-11T06:31,'FIFTH',1177,61A,OUTBOUND,2023-12-11,06:35,06:45,06:42"
      +:+ nl.
Proof.
  split; [|vm_compute; reflexivity].
  apply (matched_row_enriched schedule_one_trip observation
           "1177" "61A" "OUTBOUND" "06:35" 1 2
           ("T1,61A,WK,0,06:42:00,06:42:00,1177,FIFTH,40.45,-79.93" +:+ nl)
           6 42 0);
    try (vm_compute; reflexivity); try lia.
  - split; [vm_compute; lia|]. split; [vm_compute; reflexivity|].
    intros k Hk. lia.
  - intros k l' Hk. lia.
Defined.

(** C6, refuted as stated.  [schedule_same_route] contains the block of
    trip T1: route 61A, direction 0, first time 06:35:00, and a later
    line of the block with stop_id 1177 and arrival_time 06:42:00.  The
    line before the block belongs to route 61A too, so the first loop
    takes no [break] there, ends on the last index, and the row is
    dropped instead of being enriched with 06:42. *)
Lemma same_route_block_not_found :
  trip_block schedule_same_route 2
  = [ "T1,61A,WK,0,06:35:00,06:35:00,100,FORBES,40.44,-79.95" +:+ nl;
      "T1,61A,WK,0,06:42:00,06:42:00,1177,FIFTH,40.45,-79.93" +:+ nl ]
  ∧ field 1 ("T1,61A,WK,0,06:35:00,06:35:00,100,FORBES,40.44,-79.95" +:+ nl)
    = Ok "61A"
  ∧ field 3 ("T1,61A,WK,0,06:35:00,06:35:00,100,FORBES,40.44,-79.95" +:+ nl)
    = Ok "0"
  ∧ field 4 ("T1,61A,WK,0,06:35:00,06:35:00,100,FORBES,40.44,-79.95" +:+ nl)
    = Ok "06:35:00"
  ∧ Py.startswith "06:35" "06:35:00" = true
  ∧ field 6 ("T1,61A,WK,0,06:42:00,06:42:00,1177,FIFTH,40.45,-79.93" +:+ nl)
    = Ok "1177"
  ∧ field 4 ("T1,61A,WK,0,06:42:00,06:42:00,1177,FIFTH,40.45,-79.93" +:+ nl)
    = Ok "06:42:00"
  ∧ length (Py.split "," (Py.strip observation)) = 9%nat
  ∧ find_scheduled_arrival_time schedule_same_route "1177" "61A" "OUTBOUND"
      "06:35" = Ok None
  ∧ log_scheduled_arrival_times schedule_same_route [header_line; observation]
    = Ok [header_line].
Proof. repeat split; vm_compute; reflexivity. Qed.

(** ** Scheduled-time conversion *)

Section conversion_facts.

Import Datetime.

Lemma digit_char_digit d : Num.digit_of (Num.digit_char d) = Some (d `mod` 10).
Proof.
  unfold Num.digit_char. pose proof (Z.mod_pos_bound d 10 ltac:(lia)) as H.
  assert (d `mod` 10 = 0 ∨ d `mod` 10 = 1 ∨ d `mod` 10 = 2 ∨ d `mod` 10 = 3
          ∨ d `mod` 10 = 4 ∨ d `mod` 10 = 5 ∨ d `mod` 10 = 6
          ∨ d `mod` 10 = 7 ∨ d `mod` 10 = 8 ∨ d `mod` 10 = 9) as Hc by lia.
  destruct Hc as [->|[->|[->|[->|[->|[->|[->|[->|[->| ->]]]]]]]]];
    reflexivity.
Qed.

Lemma digit_char_ne c d : Num.digit_of c = None → Num.digit_char d ≠ c.
Proof. intros Hc Heq. pose proof (digit_char_digit d). congruence. Qed.

Lemma has_char_app c a b :
  has_char c (a +:+ b) = has_char c a || has_char c b.
Proof.
  induction a as [|x a IH]; [done|].
  change (String x a +:+ b) with (String x (a +:+ b)). simpl.
  by rewrite IH, orb_assoc.
Qed.

Lemma has_char_pad2 c n : Num.digit_of c = None → has_char c (Num.pad2 n) = false.
Proof.
  intros Hc. unfold Num.pad2. simpl.
  by rewrite !bool_decide_eq_false_2 by by apply digit_char_ne.
Qed.

Lemma has_char_pad4 c n : Num.digit_of c = None → has_char c (Num.pad4 n) = false.
Proof.
  intros Hc. unfold Num.pad4, Num.pad2. simpl.
  by rewrite !bool_decide_eq_false_2 by by apply digit_char_ne.
Qed.

Lemma strftime_Ymd_no_space d : has_char " " (strftime_Ymd d) = false.
Proof.
  unfold strftime_Ymd.
  by rewrite !has_char_app, has_char_pad4, !has_char_pad2.
Qed.

Lemma strftime_HM_no_space hm : has_char " " (strftime_HM hm) = false.
Proof. unfold strftime_HM. by rewrite !has_char_app, !has_char_pad2. Qed.

(** The two pieces [split(" ")] makes of the formatted moment. *)
Lemma split_strftime t :
  Py.split " " (strftime_YmdHM t)
  = [strftime_Ymd (on t); strftime_HM (hour t, minute t)].
Proof.
  unfold strftime_YmdHM.
  rewrite split_app_sep1 by apply strftime_Ymd_no_space.
  by rewrite split_no_sep by apply strftime_HM_no_space.
Qed.

Lemma startswith_00 h x :
  0 ≤ h < 100 →
  Py.startswith "00:" (Num.pad2 h +:+ ":" +:+ x) = bool_decide (h = 0).
Proof.
  intros Hh.
  assert (Py.startswith "00" (Num.pad2 h) = bool_decide (h = 0)) as <-.
  { revert h Hh. refine (below_100 _ _). vm_compute. reflexivity. }
  unfold Num.pad2.
  change (String ?a (String ?b "") +:+ ":" +:+ x)
    with (String a (String b (String ":" x))).
  simpl. by rewrite ?andb_true_r.
Qed.

(** A parsed date is a date of the calendar. *)
Lemma strptime_Ymd_valid s d : strptime_Ymd s = Ok d → valid_date d.
Proof.
  unfold strptime_Ymd.
  destruct (Py.split "-" s) as [|y [|m [|dd [|? ?]]]]; try done.
  destruct (if decide _ then _ else _) as [y'|]; [|done].
  destruct (digits12 m) as [m'|]; [|done].
  destruct (day_field dd) as [d'|]; [|done].
  case_decide as Hv; [|done]. intros [= <-]. by destruct Hv as (_ & _ & Hv).
Qed.

Lemma year_next_day d : year d ≤ year (next_day d).
Proof. unfold next_day. repeat case_decide; simpl; lia. Qed.

Lemma year_iter_next_day d k : year d ≤ year (Nat.iter k next_day d).
Proof.
  induction k as [|k IH]; simpl; [lia|].
  pose proof (year_next_day (Nat.iter k next_day d)). lia.
Qed.

(** The sum of a valid date and a non-negative count of seconds. *)
Lemma add_seconds_nonneg d n :
  valid_date d → 0 ≤ n →
  add_seconds d n
  = if decide (n `div` 86400 ≤ 999999999
               ∧ year (add_days d (n `div` 86400)) ≤ 9999)
    then Ok (mkdatetime (add_days d (n `div` 86400))
               ((n `mod` 86400) `div` 3600)
               (((n `mod` 86400) `mod` 3600) `div` 60))
    else Raise OverflowError.
Proof.
  intros (Hy & _) Hn. unfold add_seconds.
  assert (0 ≤ n `div` 86400) as Hdiv by (apply Z.div_pos; lia).
  assert (1 ≤ year (add_days d (n `div` 86400))) as Hyear.
  { unfold add_days. rewrite decide_True by done.
    pose proof (year_iter_next_day d (Z.to_nat (n `div` 86400))). lia. }
  destruct (decide (999999999 < Z.abs (n `div` 86400))) as [Hbig|Hsmall].
  - rewrite decide_False; [done|]. lia.
  - destruct (decide (1 ≤ year (add_days d (n `div` 86400)) ≤ 9999)).
    + rewrite decide_True; [done|]. lia.
    + rewrite decide_False; [done|]. lia.
Qed.

Lemma add_days_same_day d n : 0 ≤ n < 86400 → add_days d (n `div` 86400) = d.
Proof. intros Hn. by rewrite Z.div_small by lia. Qed.

End conversion_facts.

(** C1, as the code has it.  For a date that parses and a non-negative
    count of seconds, the conversion returns the date of the moment
    (date + seconds), that is the date [n div 86400] days after the
    input date, which is the input date exactly for counts below one
    day; the time is the hour and minute of that moment, minute
    precision, written 24:xx when the hour is 0.  It raises
    [OverflowError] when the moment lies beyond the year 9999. *)
Theorem conversion_returns_date_of_moment (date_str seconds_str : string)
    (d : Datetime.date) (n : Z) :
  Datetime.strptime_Ymd date_str = Ok d →
  Num.int seconds_str = Ok n →
  0 ≤ n →
  convert_scheduled_start_date_time date_str seconds_str
  = (if decide (n `div` 86400 ≤ 999999999
                ∧ Datetime.year (Datetime.add_days d (n `div` 86400)) ≤ 9999)
     then Ok (Datetime.strftime_Ymd (Datetime.add_days d (n `div` 86400)),
              clock_of_seconds n)
     else Raise OverflowError)
  ∧ (n < 86400 →
     convert_scheduled_start_date_time date_str seconds_str
     = Ok (Datetime.strftime_Ymd d, clock_of_seconds n)).
Proof.
  intros Hd Hint Hn.
  pose proof (strptime_Ymd_valid _ _ Hd) as Hvalid.
  assert (convert_scheduled_start_date_time date_str seconds_str
    = (if decide (n `div` 86400 ≤ 999999999
                  ∧ Datetime.year (Datetime.add_days d (n `div` 86400)) ≤ 9999)
       then Ok (Datetime.strftime_Ymd (Datetime.add_days d (n `div` 86400)),
                clock_of_seconds n)
       else Raise OverflowError)) as Hmain.
  { unfold convert_scheduled_start_date_time. rewrite Hd. frozen_cbn.
    rewrite Hint. frozen_cbn. rewrite add_seconds_nonneg by done.
    case_decide as Hok; [|done]. frozen_cbn.
    rewrite split_strftime. frozen_cbn.
    pose proof (Z.mod_pos_bound n 86400 ltac:(lia)) as Hmod.
    assert (0 ≤ (n `mod` 86400) `div` 3600 < 24) as Hh.
    { split; [apply Z.div_pos; lia|]. apply Z.div_lt_upper_bound; lia. }
    unfold Datetime.strftime_HM. frozen_cbn.
    rewrite startswith_00 by lia.
    unfold clock_of_seconds.
    destruct (decide ((n `mod` 86400) `div` 3600 = 0)) as [Hz|Hnz].
    - rewrite bool_decide_eq_true_2 by done.
      rewrite split_app_sep1 by (apply has_char_pad2; reflexivity).
      rewrite split_no_sep by (apply has_char_pad2; reflexivity).
      reflexivity.
    - by rewrite bool_decide_eq_false_2 by done. }
  split; [exact Hmain|].
  intros Hlt. rewrite Hmain.
  rewrite add_days_same_day by lia.
  rewrite decide_True; [done|].
  rewrite Z.div_small by lia. destruct Hvalid as (? & _). lia.
Qed.

Lemma conversion_returns_date_of_moment_witness :
  Datetime.strptime_Ymd "2023-12-11" = Ok (Datetime.mkdate 2023 12 11)
  ∧ Num.int "23700" = Ok 23700
  ∧ 0 ≤ 23700
  ∧ convert_scheduled_start_date_time "2023-12-11" "23700"
    = Ok ("2023-12-11", "06:35")
  ∧ (23700 < 86400 →
     convert_scheduled_start_date_time "2023-12-11" "23700"
     = Ok (Datetime.strftime_Ymd (Datetime.mkdate 2023 12 11),
           clock_of_seconds 23700)).
Proof.
  split; [vm_compute; reflexivity|]. split; [vm_compute; reflexivity|].
  split; [lia|]. split; [vm_compute; reflexivity|].
  apply (conversion_returns_date_of_moment "2023-12-11" "23700"
           (Datetime.mkdate 2023 12 11) 23700);
    [vm_compute; reflexivity | vm_compute; reflexivity | lia].
Defined.

(** C1, refuted as stated.  For 86460 seconds, one minute past the next
    midnight, the time is written 24:01 and the date returned is the
    rolled-over 2023-12-12, not the input date 2023-12-11. *)
Lemma rolled_over_date_returned :
  convert_scheduled_start_date_time "2023-12-11" "86460"
    = Ok ("2023-12-12", "24:01")
  ∧ "2023-12-12" ≠ "2023-12-11".
Proof. split; [vm_compute; reflexivity | discriminate]. Qed.

(** * Further properties of the code *)

(** ** The Deduplicator on logs without duplicates, and its last line *)

Section dedup_more_facts.

Lemma keep_last_last (l : list string) : last (keep_last l) = last l.
Proof.
  induction l as [|x l IH]; [done|]. simpl.
  destruct l as [|y l].
  - case_decide as H; [|done]. by apply elem_of_nil in H.
  - case_decide; [by rewrite IH|].
    rewrite (last_cons x (keep_last _)), IH.
    by rewrite (last_cons x (y :: l)).
Qed.

End dedup_more_facts.

(** X1: a log whose lines all have seven fields and pairwise different
    combos comes back unchanged: the pass is a no-op when there is
    nothing to remove.  This covers the log that holds the header only,
    and the header with one arrival. *)
Theorem dedup_noop_without_duplicates (log : list string) :
  Forall parseable log →
  NoDup (combo_of_line <$> log) →
  remove_earlier_duplicate_trips log = Ok log.
Proof.
  intros Hp Hnd. rewrite dedup_parseable by done.
  f_equal. by apply keep_last_id.
Qed.

Lemma dedup_noop_without_duplicates_witness :
  Forall parseable [header_line; observation]
  ∧ NoDup (combo_of_line <$> [header_line; observation])
  ∧ remove_earlier_duplicate_trips [header_line; observation]
    = Ok [header_line; observation].
Proof.
  assert (Forall parseable [header_line; observation]) as Hp by by_computation.
  assert (NoDup (combo_of_line <$> [header_line; observation])) as Hnd
    by by_computation.
  split; [exact Hp|]. split; [exact Hnd|].
  exact (dedup_noop_without_duplicates _ Hp Hnd).
Defined.

(** X2: whenever the pass completes, the last line of the log, the most
    recent record, is the last line of the output, and the output has no
    more lines than the log. *)
Theorem dedup_keeps_most_recent_line (log out : list string) :
  remove_earlier_duplicate_trips log = Ok out →
  last out = last log ∧ (length out ≤ length log)%nat.
Proof.
  intros H. pose proof (dedup_Ok_parseable _ _ H) as Hp.
  rewrite (dedup_parseable _ Hp) in H. injection H as <-.
  split; [apply keep_last_last|].
  apply sublist_length, keep_last_sublist.
Qed.

Lemma dedup_keeps_most_recent_line_witness :
  remove_earlier_duplicate_trips sample_log
    = Ok [ header_line;
           "9002,2023-12-11T06:30,'FIFTH',1177,71B,INBOUND,2023-12-11,06:20,06:47" +:+ nl;
           "9001,2023-12-11T06:31,'FIFTH',1177,61A,OUTBOUND,2023-12-11,06:35,06:45" +:+ nl ]
  ∧ last [ header_line;
           "9002,2023-12-11T06:30,'FIFTH',1177,71B,INBOUND,2023-12-11,06:20,06:47" +:+ nl;
           "9001,2023-12-11T06:31,'FIFTH',1177,61A,OUTBOUND,2023-12-11,06:35,06:45" +:+ nl ]
    = last sample_log
  ∧ (length [ header_line;
           "9002,2023-12-11T06:30,'FIFTH',1177,71B,INBOUND,2023-12-11,06:20,06:47" +:+ nl;
           "9001,2023-12-11T06:31,'FIFTH',1177,61A,OUTBOUND,2023-12-11,06:35,06:45" +:+ nl ]
     ≤ length sample_log)%nat.
Proof.
  assert (remove_earlier_duplicate_trips sample_log
    = Ok [ header_line;
           "9002,2023-12-11T06:30,'FIFTH',1177,71B,INBOUND,2023-12-11,06:20,06:47" +:+ nl;
           "9001,2023-12-11T06:31,'FIFTH',1177,61A,OUTBOUND,2023-12-11,06:35,06:45" +:+ nl ])
    as H by (vm_compute; reflexivity).
  split; [exact H | exact (dedup_keeps_most_recent_line _ _ H)].
Defined.

(** ** Edge cases of the Schedule Matcher *)

Section matcher_edge_facts.

Lemma index_cases {A} (l : list A) (k : nat) :
  (∃ x, Py.index l k = Ok x) ∨ Py.index l k = Raise IndexError.
Proof. unfold Py.index. destruct (l !! k); [left; by eexists | by right]. Qed.

Lemma matcher_loop_ten (schedule rows new_lines : list string) :
  Forall (λ row, length (Py.split "," (Py.strip row)) = 10%nat) rows →
  matcher_loop schedule rows new_lines
  = Ok (new_lines ++ ((λ row, Py.strip row +:+ nl) <$> rows)).
Proof.
  intros H. revert new_lines.
  induction H as [|row rows Hrow _ IH]; intros new_lines.
  - simpl. by rewrite app_nil_r.
  - rewrite matcher_loop_cons, match_row_ten by done. frozen_cbn.
    rewrite IH. by rewrite <- app_assoc.
Qed.

End matcher_edge_facts.

(** X3: on a timetable without a data line (empty, or the header alone)
    the first loop never runs, its variable [i] stays unbound, and the
    lookup raises [UnboundLocalError] whatever is looked up; a row of
    nine fields then aborts the pass with that exception. *)
Theorem lookup_without_data_line (schedule : list string)
    (stop_id route_id direction scheduled_start_time row : string) :
  (length schedule ≤ 1)%nat →
  find_scheduled_arrival_time schedule stop_id route_id direction
    scheduled_start_time = Raise UnboundLocalError
  ∧ (length (Py.split "," (Py.strip row)) = 9%nat →
     match_row schedule row = Raise UnboundLocalError).
Proof.
  intros Hlen.
  assert (∀ a b c d, find_scheduled_arrival_time schedule a b c d
                     = Raise UnboundLocalError) as Hfind.
  { intros a b c d. unfold find_scheduled_arrival_time, range.
    replace (length schedule - 1)%nat with 0%nat by lia. reflexivity. }
  split; [apply Hfind|].
  intros Hrow. unfold match_row. rewrite decide_False by lia.
  destruct (index_lt (Py.split "," (Py.strip row)) 3) as (a & -> & _); [lia|].
  destruct (index_lt (Py.split "," (Py.strip row)) 4) as (b & -> & _); [lia|].
  destruct (index_lt (Py.split "," (Py.strip row)) 5) as (c & -> & _); [lia|].
  destruct (index_lt (Py.split "," (Py.strip row)) 7) as (d & -> & _); [lia|].
  frozen_cbn. by rewrite Hfind.
Qed.

Lemma lookup_without_data_line_witness :
  (length [schedule_header] ≤ 1)%nat
  ∧ find_scheduled_arrival_time [schedule_header] "1177" "61A" "OUTBOUND"
      "06:35" = Raise UnboundLocalError
  ∧ (length (Py.split "," (Py.strip observation)) = 9%nat →
     match_row [schedule_header] observation = Raise UnboundLocalError).
Proof.
  split; [simpl; lia|].
  apply (lookup_without_data_line [schedule_header]). simpl. lia.
Defined.

(** X4: a log in which every row after the first line has ten fields
    passes through the Matcher whatever the timetable is, even an empty
    one: the timetable is not read, and each row is written stripped
    and newline-terminated, in order, after the first line. *)
Theorem matched_log_ignores_timetable (schedule : list string)
    (first : string) (rows : list string) :
  Forall (λ row, length (Py.split "," (Py.strip row)) = 10%nat) rows →
  log_scheduled_arrival_times schedule (first :: rows)
  = Ok (first :: ((λ row, Py.strip row +:+ nl) <$> rows)).
Proof.
  intros H. unfold log_scheduled_arrival_times. frozen_cbn.
  rewrite drop_0. by rewrite matcher_loop_ten.
Qed.

Lemma matched_log_ignores_timetable_witness :
  Forall (λ row, length (Py.split "," (Py.strip row)) = 10%nat)
    ["9002,2023-12-11T06:30,'FIFTH',1177,71B,INBOUND,2023-12-11,06:20,06:47,06:45" +:+ nl]
  ∧ log_scheduled_arrival_times []
      [ header_line;
        "9002,2023-12-11T06:30,'FIFTH',1177,71B,INBOUND,2023-12-11,06:20,06:47,06:45" +:+ nl ]
    = Ok (header_line
          :: ((λ row, Py.strip row +:+ nl)
              <$> ["9002,2023-12-11T06:30,'FIFTH',1177,71B,INBOUND,2023-12-11,06:20,06:47,06:45" +:+ nl])).
Proof.
  assert (Forall (λ row, length (Py.split "," (Py.strip row)) = 10%nat)
    ["9002,2023-12-11T06:30,'FIFTH',1177,71B,INBOUND,2023-12-11,06:20,06:47,06:45" +:+ nl])
    as H by by_computation.
  split; [exact H | exact (matched_log_ignores_timetable [] header_line _ H)].
Defined.

(** X5: a row that has fewer than eight fields, such as a blank line,
    makes its iteration raise [IndexError] when the stop, route,
    direction and start time are read; when the rows before it all have
    ten fields, the pass stops with that exception and writes nothing. *)
Theorem short_row_aborts_matcher (schedule : list string) (first : string)
    (pre : list string) (row : string) (post : list string) :
  (length (Py.split "," (Py.strip row)) < 8)%nat →
  Forall (λ r, length (Py.split "," (Py.strip r)) = 10%nat) pre →
  match_row schedule row = Raise IndexError
  ∧ log_scheduled_arrival_times schedule (first :: pre ++ row :: post)
    = Raise IndexError.
Proof.
  intros Hlen Hpre.
  assert (match_row schedule row = Raise IndexError) as Hrow.
  { unfold match_row. rewrite decide_False by lia.
    destruct (index_cases (Py.split "," (Py.strip row)) 3) as [[a ->]| ->];
      [|done].
    destruct (index_cases (Py.split "," (Py.strip row)) 4) as [[b ->]| ->];
      [|done].
    destruct (index_cases (Py.split "," (Py.strip row)) 5) as [[c ->]| ->];
      [|done].
    frozen_cbn. by rewrite index_Raise by lia. }
  split; [done|].
  unfold log_scheduled_arrival_times. frozen_cbn. rewrite drop_0.
  generalize [first]. induction Hpre as [|r pre Hr _ IH]; intros acc.
  - simpl. by rewrite Hrow.
  - rewrite <- app_comm_cons, matcher_loop_cons, match_row_ten by done.
    frozen_cbn. apply IH.
Qed.

Lemma short_row_aborts_matcher_witness :
  (length (Py.split "," (Py.strip nl)) < 8)%nat
  ∧ Forall (λ r, length (Py.split "," (Py.strip r)) = 10%nat) []
  ∧ match_row schedule_one_trip nl = Raise IndexError
  ∧ log_scheduled_arrival_times schedule_one_trip
      (header_line :: [] ++ nl :: [observation]) = Raise IndexError.
Proof.
  assert (length (Py.split "," (Py.strip nl)) < 8)%nat as H
    by (vm_compute; lia).
  split; [exact H|]. split; [apply Forall_nil_2|].
  exact (short_row_aborts_matcher schedule_one_trip header_line [] nl
           [observation] H (Forall_nil_2 _)).
Defined.

(** X6: an arrival time whose hour is 48 or more is not normalised.
    The first [strptime] rejects it, the handler subtracts 24, the
    second [strptime] rejects the result, and its [ValueError] leaves
    the lookup. *)
Theorem arrival_hour_from_48_raises (h m s : Z) :
  48 ≤ h < 100 → 0 ≤ m < 60 → 0 ≤ s < 60 →
  format_arrival (clock h m s) = Raise ValueError.
Proof.
  intros Hh Hm Hs. unfold format_arrival.
  rewrite strptime_HMS_clock by lia.
  rewrite decide_False by lia. frozen_cbn. unfold clock.
  rewrite split_clock by (try apply pad2_no_colon; lia). frozen_cbn.
  rewrite int_pad2 by lia. frozen_cbn.
  change (Py.join ":" [Num.str (h - 24); Num.pad2 m; Num.pad2 s])
    with (Num.str (h - 24) +:+ ":" +:+ Num.pad2 m +:+ ":" +:+ Num.pad2 s).
  unfold Datetime.strptime_HMS.
  rewrite split_clock by (try apply str_no_colon; lia).
  rewrite digits12_str, !digits12_pad2 by lia.
  rewrite (decide_True (P := ValueError = ValueError)) by done.
  by rewrite decide_False by lia.
Qed.

Lemma arrival_hour_from_48_raises_witness :
  format_arrival (clock 49 10 0) = Raise ValueError
  ∧ clock 49 10 0 = "49:10:00".
Proof.
  split; [apply arrival_hour_from_48_raises; lia | vm_compute; reflexivity].
Defined.

(** ** The shape of the converted time *)

Section conversion_shape_facts.

Import Datetime.

(** The hour and minute of any sum are those of a clock. *)
Lemma add_seconds_clock d n dt :
  add_seconds d n = Ok dt →
  on dt = add_days d (n `div` 86400)
  ∧ 1 ≤ year (on dt) ≤ 9999
  ∧ 0 ≤ hour dt < 24 ∧ 0 ≤ minute dt < 60.
Proof.
  unfold add_seconds. case_decide; [done|]. case_decide as Hy; [|done].
  intros [= <-]. simpl.
  pose proof (Z.mod_pos_bound n 86400 ltac:(lia)) as Hmod.
  pose proof (Z.mod_pos_bound (n `mod` 86400) 3600 ltac:(lia)) as Hmod'.
  repeat split; try lia.
  - apply Z.div_pos; lia.
  - apply Z.div_lt_upper_bound; lia.
  - apply Z.div_pos; lia.
  - apply Z.div_lt_upper_bound; lia.
Qed.

(** What the conversion returns for a moment, once the sum is known. *)
Lemma convert_of_moment date_str seconds_str d n dt :
  strptime_Ymd date_str = Ok d → Num.int seconds_str = Ok n →
  add_seconds d n = Ok dt →
  convert_scheduled_start_date_time date_str seconds_str
  = Ok (strftime_Ymd (on dt),
        Num.pad2 (if decide (hour dt = 0) then 24 else hour dt) +:+ ":"
        +:+ Num.pad2 (minute dt)).
Proof.
  intros Hd Hn Hdt.
  destruct (add_seconds_clock _ _ _ Hdt) as (_ & _ & Hh & Hm).
  unfold convert_scheduled_start_date_time.
  rewrite Hd. frozen_cbn. rewrite Hn. frozen_cbn. rewrite Hdt. frozen_cbn.
  rewrite split_strftime. frozen_cbn.
  unfold strftime_HM. frozen_cbn. rewrite startswith_00 by lia.
  destruct (decide (hour dt = 0)) as [Hz|Hnz].
  - rewrite bool_decide_eq_true_2 by done.
    rewrite split_app_sep1 by (apply has_char_pad2; reflexivity).
    rewrite split_no_sep by (apply has_char_pad2; reflexivity).
    reflexivity.
  - by rewrite bool_decide_eq_false_2 by done.
Qed.

End conversion_shape_facts.

(** X7: whatever the date and the count of seconds, negative counts
    included, a time the conversion returns is two digits of hour, a
    colon and two digits of minute, with the hour between 1 and 24 and
    the minute between 0 and 59: midnight's hour is never written 00. *)
Theorem converted_time_never_starts_with_00 (date_str seconds_str : string)
    (date time : string) :
  convert_scheduled_start_date_time date_str seconds_str = Ok (date, time) →
  ∃ h m,
    1 ≤ h ≤ 24 ∧ 0 ≤ m ≤ 59
    ∧ time = Num.pad2 h +:+ ":" +:+ Num.pad2 m
    ∧ Py.startswith "00:" time = false.
Proof.
  intros H.
  destruct (Datetime.strptime_Ymd date_str) as [d|] eqn:Hd.
  2:{ unfold convert_scheduled_start_date_time in H. by rewrite Hd in H. }
  destruct (Num.int seconds_str) as [n|] eqn:Hn.
  2:{ unfold convert_scheduled_start_date_time in H.
      rewrite Hd in H. frozen_cbn in H. by rewrite Hn in H. }
  destruct (Datetime.add_seconds d n) as [dt|] eqn:Hdt.
  2:{ unfold convert_scheduled_start_date_time in H.
      rewrite Hd in H. frozen_cbn in H. rewrite Hn in H. frozen_cbn in H.
      by rewrite Hdt in H. }
  rewrite (convert_of_moment _ _ _ _ _ Hd Hn Hdt) in H.
  injection H as _ <-.
  destruct (add_seconds_clock _ _ _ Hdt) as (_ & _ & Hh & Hm).
  exists (if decide (Datetime.hour dt = 0) then 24 else Datetime.hour dt),
    (Datetime.minute dt).
  split; [case_decide; lia|]. split; [lia|]. split; [done|].
  rewrite startswith_00 by (case_decide; lia).
  apply bool_decide_eq_false_2. case_decide; lia.
Qed.

Lemma converted_time_never_starts_with_00_witness :
  convert_scheduled_start_date_time "2023-12-11" "-86340"
    = Ok ("2023-12-10", "24:01")
  ∧ ∃ h m,
      1 ≤ h ≤ 24 ∧ 0 ≤ m ≤ 59
      ∧ "24:01" = Num.pad2 h +:+ ":" +:+ Num.pad2 m
      ∧ Py.startswith "00:" "24:01" = false.
Proof.
  assert (convert_scheduled_start_date_time "2023-12-11" "-86340"
          = Ok ("2023-12-10", "24:01")) as H by (vm_compute; reflexivity).
  split; [exact H|].
  exact (converted_time_never_starts_with_00 _ _ _ _ H).
Defined.

(** ** The Timetable Builder: missing ids and the shape of the table *)

Section timetable_more_facts.

Import Timetable.

(** An id that no row has stays out of the dictionary. *)
Lemma dict_absent (table : list row4) (d : gmap string row4) (id : string) :
  d !! id = None → Forall (λ row, c0 row ≠ id) table →
  foldl dict_step d table !! id = None.
Proof.
  intros Hd H. revert d Hd.
  induction H as [|x table Hx _ IH]; intros d Hd; [done|].
  simpl. apply IH. unfold dict_step.
  destruct (d !! c0 x); [done|]. by rewrite lookup_insert_ne.
Qed.

Lemma enrich_widen_length (tripsDict stopsDict : gmap string row4) (st : row4) :
  length (enrich tripsDict stopsDict (widen st)) = 10%nat.
Proof. by rewrite enrich_widen. Qed.

End timetable_more_facts.

(** X9: a stop_time row whose trip_id occurs in no row of the trips
    table keeps the zero value "0.0" in its route_id, service_id and
    direction columns, and one whose stop_id occurs in no row of the
    stops table keeps it in its name, latitude and longitude columns:
    a missing reference is not an error. *)
Theorem missing_reference_leaves_zero
    (stop_times trips stops : list Timetable.row4)
    (k : nat) (st : Timetable.row4) :
  (2 ≤ length stop_times)%nat → (2 ≤ length trips)%nat →
  (2 ≤ length stops)%nat →
  stop_times !! k = Some st →
  ∃ out_row,
    Timetable.mergeStopTimesAndTrips stop_times trips stops !! S k = Some out_row
    ∧ (Forall (λ trip, Timetable.c0 trip ≠ Timetable.c0 st) trips →
       out_row !! 1%nat = Some "0.0" ∧ out_row !! 2%nat = Some "0.0"
       ∧ out_row !! 3%nat = Some "0.0")
    ∧ (Forall (λ stop, Timetable.c0 stop ≠ Timetable.c3 st) stops →
       out_row !! 7%nat = Some "0.0" ∧ out_row !! 8%nat = Some "0.0"
       ∧ out_row !! 9%nat = Some "0.0").
Proof.
  intros _ _ _ Hk.
  exists (Timetable.enrich (foldl Timetable.dict_step ∅ trips)
            (foldl Timetable.dict_step ∅ stops) (Timetable.widen st)).
  split.
  { unfold Timetable.mergeStopTimesAndTrips, Timetable.readTrips,
      Timetable.readStops, Timetable.readStopTimes.
    simpl. by rewrite !list_lookup_fmap, Hk. }
  rewrite enrich_widen. split.
  - intros H. by rewrite (dict_absent _ _ _ (lookup_empty _) H).
  - intros H. by rewrite (dict_absent _ _ _ (lookup_empty _) H).
Qed.

Lemma missing_reference_leaves_zero_witness :
  Timetable.mergeStopTimesAndTrips
    [ Timetable.mkrow4 "T7" "06:35:00" "06:35:00" "555";
      Timetable.mkrow4 "T1" "06:42:00" "06:42:00" "1177" ]
    sample_trips sample_stops !! 1%nat
  = Some ["T7"; "0.0"; "0.0"; "0.0"; "06:35:00"; "06:35:00"; "555"; "0.0";
          "0.0"; "0.0"]
  ∧ ∃ out_row,
      Timetable.mergeStopTimesAndTrips
        [ Timetable.mkrow4 "T7" "06:35:00" "06:35:00" "555";
          Timetable.mkrow4 "T1" "06:42:00" "06:42:00" "1177" ]
        sample_trips sample_stops !! 1%nat = Some out_row
      ∧ (Forall (λ trip, Timetable.c0 trip ≠ "T7") sample_trips →
         out_row !! 1%nat = Some "0.0" ∧ out_row !! 2%nat = Some "0.0"
         ∧ out_row !! 3%nat = Some "0.0")
      ∧ (Forall (λ stop, Timetable.c0 stop ≠ "555") sample_stops →
         out_row !! 7%nat = Some "0.0" ∧ out_row !! 8%nat = Some "0.0"
         ∧ out_row !! 9%nat = Some "0.0").
Proof.
  split; [vm_compute; reflexivity|].
  apply (missing_reference_leaves_zero
           [ Timetable.mkrow4 "T7" "06:35:00" "06:35:00" "555";
             Timetable.mkrow4 "T1" "06:42:00" "06:42:00" "1177" ]
           sample_trips sample_stops 0
           (Timetable.mkrow4 "T7" "06:35:00" "06:35:00" "555"));
    [vm_compute; lia | vm_compute; lia | vm_compute; lia | reflexivity].
Defined.

(** X10: the table built is the row of column names followed by one
    row per stop_time row, and every row has ten columns, whatever the
    reference tables contain. *)
Theorem timetable_shape (stop_times trips stops : list Timetable.row4) :
  (2 ≤ length stop_times)%nat → (2 ≤ length trips)%nat →
  (2 ≤ length stops)%nat →
  Timetable.mergeStopTimesAndTrips stop_times trips stops !! 0%nat
    = Some Timetable.titles
  ∧ length (Timetable.mergeStopTimesAndTrips stop_times trips stops)
    = S (length stop_times)
  ∧ Forall (λ row, length row = 10%nat)
      (Timetable.mergeStopTimesAndTrips stop_times trips stops).
Proof.
  intros _ _ _.
  unfold Timetable.mergeStopTimesAndTrips, Timetable.readTrips,
    Timetable.readStops, Timetable.readStopTimes. simpl.
  split; [done|]. split; [by rewrite !length_fmap|].
  apply Forall_cons. split; [done|].
  rewrite <- list_fmap_compose. apply Forall_fmap, Forall_forall.
  intros st _. apply enrich_widen_length.
Qed.

Lemma timetable_shape_witness :
  Timetable.mergeStopTimesAndTrips sample_stop_times sample_trips sample_stops
    !! 0%nat = Some Timetable.titles
  ∧ length (Timetable.mergeStopTimesAndTrips sample_stop_times sample_trips
              sample_stops) = S (length sample_stop_times)
  ∧ Forall (λ row, length row = 10%nat)
      (Timetable.mergeStopTimesAndTrips sample_stop_times sample_trips
         sample_stops).
Proof.
  apply (timetable_shape sample_stop_times sample_trips sample_stops);
    vm_compute; lia.
Defined.

(** ** Text: stripping and splitting *)

Section strip_facts.

Implicit Types (c sep : ascii) (a b r w : string).

Lemma string_app_assoc a b r : (a +:+ b) +:+ r = a +:+ b +:+ r.
Proof.
  induction a as [|x a IH]; [done|].
  change (String x (a +:+ b) +:+ r = String x (a +:+ b +:+ r)).
  change (String x ((a +:+ b) +:+ r) = String x (a +:+ b +:+ r)).
  by rewrite IH.
Qed.

Lemma string_app_empty_r a : a +:+ "" = a.
Proof.
  induction a as [|x a IH]; [done|].
  change (String x (a +:+ "") = String x a). by rewrite IH.
Qed.

Lemma lstrip_app_nonspace a c r :
  Py.isspace c = false →
  Py.lstrip (a +:+ String c r) = Py.lstrip a +:+ String c r.
Proof.
  intros Hc. induction a as [|x a IH].
  - change (Py.lstrip (String c r) = String c r). simpl. by rewrite Hc.
  - change (Py.lstrip (String x (a +:+ String c r))
            = Py.lstrip (String x a) +:+ String c r).
    simpl. destruct (Py.isspace x); [exact IH | done].
Qed.

Lemma rstrip_cons_nonspace c r :
  Py.isspace c = false → Py.rstrip (String c r) = String c (Py.rstrip r).
Proof. intros Hc. simpl. destruct (Py.rstrip r); [by rewrite Hc | done]. Qed.

Lemma rstrip_app_nonspace a c r :
  Py.isspace c = false →
  Py.rstrip (a +:+ String c r) = a +:+ String c (Py.rstrip r).
Proof.
  intros Hc. induction a as [|x a IH].
  - by apply rstrip_cons_nonspace.
  - change (Py.rstrip (String x (a +:+ String c r))
            = String x (a +:+ String c (Py.rstrip r))).
    simpl. rewrite IH. by destruct a.
Qed.

(** Trailing whitespace does not count. *)
Lemma rstrip_app_space a w :
  Py.rstrip w = "" → Py.rstrip (a +:+ w) = Py.rstrip a.
Proof.
  intros Hw. induction a as [|x a IH]; [done|].
  change (Py.rstrip (String x (a +:+ w)) = Py.rstrip (String x a)).
  simpl. by rewrite IH.
Qed.

Lemma lstrip_idem a : Py.lstrip (Py.lstrip a) = Py.lstrip a.
Proof.
  induction a as [|x a IH]; [done|]. simpl.
  destruct (Py.isspace x) eqn:Hx; [done|]. simpl. by rewrite Hx.
Qed.

Lemma rstrip_idem a : Py.rstrip (Py.rstrip a) = Py.rstrip a.
Proof.
  induction a as [|x a IH]; [done|]. simpl.
  destruct (Py.rstrip a) as [|y r'] eqn:Hr.
  - destruct (Py.isspace x) eqn:Hx; [done|]. simpl. by rewrite Hx.
  - change (Py.rstrip (String x (String y r')) = String x (String y r')).
    simpl in IH |- *. by rewrite IH.
Qed.

(** Stripping the left of a right-stripped text leaves it
    right-stripped. *)
Lemma rstrip_lstrip_fixed a :
  Py.rstrip a = a → Py.rstrip (Py.lstrip a) = Py.lstrip a.
Proof.
  induction a as [|x a IH]; [done|]. intros Hfix. simpl.
  destruct (Py.isspace x) eqn:Hx; [|done].
  apply IH. simpl in Hfix. rewrite Hx in Hfix.
  destruct (Py.rstrip a); [done | by injection Hfix].
Qed.

Lemma strip_idem a : Py.strip (Py.strip a) = Py.strip a.
Proof.
  unfold Py.strip.
  rewrite (rstrip_lstrip_fixed (Py.rstrip a)) by apply rstrip_idem.
  apply lstrip_idem.
Qed.

Lemma lstrip_strip a : Py.lstrip (Py.strip a) = Py.strip a.
Proof. unfold Py.strip. apply lstrip_idem. Qed.

Lemma strip_app_space a w : Py.rstrip w = "" → Py.strip (a +:+ w) = Py.strip a.
Proof. intros Hw. unfold Py.strip. by rewrite rstrip_app_space. Qed.

(** A stripped line is itself again once its newline is put back and
    stripped. *)
Lemma strip_strip_nl a : Py.strip (Py.strip a +:+ nl) = Py.strip a.
Proof. rewrite strip_app_space by done. apply strip_idem. Qed.

(** Splitting distributes over a separator. *)
Lemma split_app sep a r :
  Py.split sep (a +:+ String sep r) = Py.split sep a ++ Py.split sep r.
Proof.
  induction a as [|x a IH].
  - change (Py.split sep (String sep r) = [""] ++ Py.split sep r).
    simpl. by rewrite decide_True.
  - change (Py.split sep (String x (a +:+ String sep r))
            = Py.split sep (String x a) ++ Py.split sep r).
    simpl. rewrite IH. case_decide; [done|].
    pose proof (split_nonempty sep a). by destruct (Py.split sep a).
Qed.

Lemma split_app_last sep a w :
  has_char sep w = false →
  Py.split sep (a +:+ String sep w) = Py.split sep a ++ [w].
Proof. intros Hw. by rewrite split_app, (split_no_sep _ _ Hw). Qed.

Lemma length_split_lstrip sep a :
  Py.isspace sep = false →
  length (Py.split sep (Py.lstrip a)) = length (Py.split sep a).
Proof.
  intros Hsep. induction a as [|x a IH]; [done|]. simpl.
  destruct (Py.isspace x) eqn:Hx; [|done].
  rewrite IH. rewrite decide_False by congruence.
  pose proof (split_nonempty sep a). by destruct (Py.split sep a).
Qed.

Lemma join_cons2 (s : string) w w' ws :
  Py.join s (w :: w' :: ws) = w +:+ s +:+ Py.join s (w' :: ws).
Proof. reflexivity. Qed.

Lemma join_app (s : string) (pre post : list string) :
  pre ≠ [] → post ≠ [] →
  Py.join s (pre ++ post) = Py.join s pre +:+ s +:+ Py.join s post.
Proof.
  intros Hpre Hpost. induction pre as [|w pre IH]; [done|].
  destruct pre as [|w' pre].
  - destruct post as [|p post]; [done|]. reflexivity.
  - change ((w :: w' :: pre) ++ post) with (w :: w' :: (pre ++ post)).
    rewrite !join_cons2.
    change (w' :: pre ++ post) with ((w' :: pre) ++ post).
    rewrite IH by done. by rewrite string_app_assoc, string_app_assoc.
Qed.

Lemma split_join sep (l : list string) :
  l ≠ [] → Forall (λ w, has_char sep w = false) l →
  Py.split sep (Py.join (String sep "") l) = l.
Proof.
  intros Hne Hl. induction Hl as [|w l Hw Hl IH]; [done|].
  destruct l as [|w' l].
  - by apply split_no_sep.
  - rewrite join_cons2, split_app_sep1 by done. by rewrite IH.
Qed.

Lemma isspace_not_digit c : Py.isspace c = true → Num.digit_of c = None.
Proof. destruct c as [[] [] [] [] [] [] [] []]; simpl; done. Qed.

Lemma digit_char_nonspace d : Py.isspace (Num.digit_char d) = false.
Proof.
  destruct (Py.isspace (Num.digit_char d)) eqn:H; [|done].
  apply isspace_not_digit in H. by rewrite digit_char_digit in H.
Qed.

End strip_facts.

(** ** The Matcher run again, and run after the Deduplicator *)

Section matcher_again_facts.

Implicit Types (schedule rows : list string) (row l t : string).

(** Whatever the Matcher appends came out of [strftime('%H:%M')]. *)
Lemma format_arrival_shape a t :
  format_arrival a = Ok t → ∃ hm, t = Datetime.strftime_HM hm.
Proof.
  unfold format_arrival, try_except.
  destruct (Datetime.strptime_HMS a) as [hm|e]; frozen_cbn.
  - intros [= <-]. by exists hm.
  - case_decide; [|done].
    destruct (Py.index _ 0); frozen_cbn; [|done].
    destruct (Num.int _); frozen_cbn; [|done].
    destruct (Py.index _ 1); frozen_cbn; [|done].
    destruct (Py.index _ 2); frozen_cbn; [|done].
    destruct (Datetime.strptime_HMS _) as [hm|]; frozen_cbn; [|done].
    intros [= <-]. by exists hm.
Qed.

Lemma find_time schedule stop_id route_id direction scheduled_start_time t :
  find_scheduled_arrival_time schedule stop_id route_id direction
    scheduled_start_time = Ok (Some t) →
  ∃ hm, t = Datetime.strftime_HM hm.
Proof.
  unfold find_scheduled_arrival_time.
  destruct (first_loop _ _ _ _ _ _) as [[i|]|]; frozen_cbn; [|done|done].
  unfold range. intros H. apply second_loop_inv in H; [|lia].
  destruct H as (j & l & stop4 & _ & _ & _ & _ & Ht & _).
  by apply format_arrival_shape in Ht.
Qed.

(** The line an iteration appends for a row without ten fields. *)
Lemma match_row_time schedule row l :
  length (Py.split "," (Py.strip row)) ≠ 10%nat →
  match_row schedule row = Ok (Some l) →
  ∃ hm, l = Py.strip row +:+ "," +:+ Datetime.strftime_HM hm +:+ nl.
Proof.
  unfold match_row. intros Hlen. rewrite decide_False by done.
  destruct (Py.index _ 3); frozen_cbn; [|done].
  destruct (Py.index _ 4); frozen_cbn; [|done].
  destruct (Py.index _ 5); frozen_cbn; [|done].
  destruct (Py.index _ 7); frozen_cbn; [|done].
  destruct (find_scheduled_arrival_time _ _ _ _ _) as [[t|]|] eqn:Hfind;
    frozen_cbn; [|done|done].
  intros [= <-]. apply find_time in Hfind as [hm ->]. by exists hm.
Qed.

Lemma strftime_HM_no_comma hm : has_char "," (Datetime.strftime_HM hm) = false.
Proof.
  unfold Datetime.strftime_HM. by rewrite !has_char_app, !has_char_pad2.
Qed.

Lemma rstrip_clock a (d1 d2 d3 d4 : ascii) :
  Py.isspace d1 = false → Py.isspace d2 = false →
  Py.isspace d3 = false → Py.isspace d4 = false →
  Py.rstrip (a +:+ String d1 (String d2 (String ":" (String d3 (String d4 nl)))))
  = a +:+ String d1 (String d2 (String ":" (String d3 (String d4 "")))).
Proof.
  intros H1 H2 H3 H4. rewrite rstrip_app_nonspace by done.
  rewrite (rstrip_cons_nonspace d2) by done.
  rewrite (rstrip_cons_nonspace ":") by done.
  rewrite (rstrip_cons_nonspace d3) by done.
  by rewrite (rstrip_cons_nonspace d4) by done.
Qed.

Lemma rstrip_time a hm :
  Py.rstrip (a +:+ Datetime.strftime_HM hm +:+ nl)
  = a +:+ Datetime.strftime_HM hm.
Proof.
  exact (rstrip_clock a (Num.digit_char (hm.1 `div` 10)) (Num.digit_char hm.1)
           (Num.digit_char (hm.2 `div` 10)) (Num.digit_char hm.2)
           (digit_char_nonspace _) (digit_char_nonspace _)
           (digit_char_nonspace _) (digit_char_nonspace _)).
Qed.

(** Stripping the line written for a matched row gives back the
    stripped row and the time. *)
Lemma strip_enriched a hm :
  Py.lstrip a = a →
  Py.strip (a +:+ "," +:+ Datetime.strftime_HM hm +:+ nl)
  = a +:+ "," +:+ Datetime.strftime_HM hm.
Proof.
  intros Ha. unfold Py.strip.
  change (a +:+ "," +:+ Datetime.strftime_HM hm +:+ nl)
    with (a +:+ String "," ("" +:+ Datetime.strftime_HM hm +:+ nl)).
  rewrite rstrip_app_nonspace by done. rewrite rstrip_time.
  rewrite lstrip_app_nonspace by done. by rewrite Ha.
Qed.

Lemma fields_enriched row hm :
  Py.split "," (Py.strip (Py.strip row +:+ "," +:+ Datetime.strftime_HM hm +:+ nl))
  = Py.split "," (Py.strip row) ++ [Datetime.strftime_HM hm].
Proof.
  rewrite strip_enriched by apply lstrip_strip.
  apply split_app_last, strftime_HM_no_comma.
Qed.

(** A line the Matcher wrote for a row of nine or ten fields has ten
    fields and is its own rewriting. *)
Lemma match_row_settled schedule row l :
  length (Py.split "," (Py.strip row)) = 9%nat
  ∨ length (Py.split "," (Py.strip row)) = 10%nat →
  match_row schedule row = Ok (Some l) →
  length (Py.split "," (Py.strip l)) = 10%nat ∧ Py.strip l +:+ nl = l.
Proof.
  intros Hlen Hrow.
  destruct (decide (length (Py.split "," (Py.strip row)) = 10%nat)) as [Hten|Hn].
  - rewrite match_row_ten in Hrow by done. injection Hrow as <-.
    by rewrite strip_strip_nl.
  - destruct Hlen as [Hnine|?]; [|done].
    apply match_row_time in Hrow as [hm ->]; [|done].
    rewrite fields_enriched, length_app, Hnine.
    split; [done|].
    rewrite strip_enriched by apply lstrip_strip.
    by rewrite !string_app_assoc.
Qed.

Lemma matcher_appended_settled schedule rows appended :
  Forall (λ row, length (Py.split "," (Py.strip row)) = 9%nat
                 ∨ length (Py.split "," (Py.strip row)) = 10%nat) rows →
  Forall2 (λ row a, match_row schedule row = Ok a) rows appended →
  Forall (λ l, length (Py.split "," (Py.strip l)) = 10%nat
               ∧ Py.strip l +:+ nl = l) (omap id appended).
Proof.
  intros Hrows HF. induction HF as [|row a rows appended Hrow _ IH].
  - constructor.
  - apply Forall_cons in Hrows as [Hlen Hrows].
    destruct a as [l|]; simpl; [|by apply IH].
    constructor; [by eapply match_row_settled | by apply IH].
Qed.

(** The three identifying fields of a parseable row are those of the
    line written for it. *)
Lemma match_row_combo schedule row l :
  parseable row →
  match_row schedule row = Ok (Some l) →
  combo_of_line l = combo_of_line row.
Proof.
  intros Hp Hrow. unfold parseable in Hp.
  destruct (decide (length (Py.split "," (Py.strip row)) = 10%nat)) as [Hten|Hn].
  - rewrite match_row_ten in Hrow by done. injection Hrow as <-.
    unfold combo_of_line. by rewrite strip_strip_nl.
  - apply match_row_time in Hrow as [hm ->]; [|done].
    unfold combo_of_line. rewrite fields_enriched.
    unfold Py.index. by rewrite !lookup_app_l by lia.
Qed.

(** The Matcher neither reorders rows nor touches their identifying
    fields: the combos written are, in order, among the combos read. *)
Lemma matcher_combos_sublist schedule rows appended :
  Forall parseable rows →
  Forall2 (λ row a, match_row schedule row = Ok a) rows appended →
  (combo_of_line <$> omap id appended) `sublist_of` (combo_of_line <$> rows).
Proof.
  intros Hrows HF. induction HF as [|row a rows appended Hrow _ IH].
  - constructor.
  - apply Forall_cons in Hrows as [Hp Hrows]. rewrite fmap_cons.
    destruct a as [l|]; simpl.
    + rewrite (match_row_combo _ _ _ Hp Hrow).
      apply sublist_skip. by apply IH.
    + apply sublist_cons. by apply IH.
Qed.

End matcher_again_facts.

(** X12: the Matcher is idempotent on logs whose rows have nine or ten
    fields, the two shapes the recorder and the Matcher write.  When the
    pass on such a log completes, every row it wrote has ten fields and
    no surrounding blanks but its newline, so a second pass over what was
    written, against the same or any other timetable, writes the same
    lines again. *)
Theorem matcher_idempotent (schedule schedule' history out : list string) :
  Forall (λ row, length (Py.split "," (Py.strip row)) = 9%nat
                 ∨ length (Py.split "," (Py.strip row)) = 10%nat)
    (drop 1 history) →
  log_scheduled_arrival_times schedule history = Ok out →
  log_scheduled_arrival_times schedule' out = Ok out.
Proof.
  unfold log_scheduled_arrival_times. intros Hrows H.
  destruct (Py.index history 0) as [first|]; [|done]. frozen_cbn in H.
  apply matcher_loop_inv in H as (appended & HF & ->).
  pose proof (matcher_appended_settled _ _ _ Hrows HF) as Hout.
  change ([first] ++ omap id appended) with (first :: omap id appended).
  change (Py.index (first :: omap id appended) 0) with (Ok (A := string) first).
  frozen_cbn. rewrite drop_0.
  rewrite matcher_loop_ten by (eapply Forall_impl; [exact Hout | by intros ? []]).
  do 2 f_equal. 
  induction Hout as [|l ls [_ Hl] _ IH]; [done|].
  rewrite fmap_cons, Hl. by rewrite IH.
Qed.

Lemma matcher_idempotent_witness :
  Forall (λ row, length (Py.split "," (Py.strip row)) = 9%nat
                 ∨ length (Py.split "," (Py.strip row)) = 10%nat)
    (drop 1 sample_log)
  ∧ log_scheduled_arrival_times schedule_one_trip sample_log
    = Ok [ header_line;
           "9001,2023-12-11T06:30,'FIFTH',1177,61A,OUTBOUND,2023-12-11,06:35,06:44,06:42" +:+ nl;
           "9001,2023-12-11T06:31,'FIFTH',1177,61A,OUTBOUND,2023-12-11,06:35,06:45,06:42" +:+ nl ]
  ∧ log_scheduled_arrival_times schedule_two_trips
      [ header_line;
        "9001,2023-12-11T06:30,'FIFTH',1177,61A,OUTBOUND,2023-12-11,06:35,06:44,06:42" +:+ nl;
        "9001,2023-12-11T06:31,'FIFTH',1177,61A,OUTBOUND,2023-12-11,06:35,06:45,06:42" +:+ nl ]
    = Ok [ header_line;
           "9001,2023-12-11T06:30,'FIFTH',1177,61A,OUTBOUND,2023-12-11,06:35,06:44,06:42" +:+ nl;
           "9001,2023-12-11T06:31,'FIFTH',1177,61A,OUTBOUND,2023-12-11,06:35,06:45,06:42" +:+ nl ].
Proof.
  assert (Forall (λ row, length (Py.split "," (Py.strip row)) = 9%nat
                         ∨ length (Py.split "," (Py.strip row)) = 10%nat)
            (drop 1 sample_log)) as Hrows by by_computation.
  assert (log_scheduled_arrival_times schedule_one_trip sample_log
    = Ok [ header_line;
           "9001,2023-12-11T06:30,'FIFTH',1177,61A,OUTBOUND,2023-12-11,06:35,06:44,06:42" +:+ nl;
           "9001,2023-12-11T06:31,'FIFTH',1177,61A,OUTBOUND,2023-12-11,06:35,06:45,06:42" +:+ nl ])
    as Hrun by by_computation.
  split; [exact Hrows|]. split; [exact Hrun|].
  exact (matcher_idempotent schedule_one_trip schedule_two_trips sample_log _
           Hrows Hrun).
Defined.

(** X14: when the two passes run in turn and complete, the log that is
    left holds each combo of trip_id, stop_id and scheduled_start_date at
    most once.  The Deduplicator leaves no two lines with the same combo,
    and the Matcher, which rewrites or drops rows and appends a field to
    some, changes neither the order of the rows nor their first seven
    fields: the combos of the final log are, in order, among those the
    Deduplicator kept. *)
Theorem finalize_combos_distinct (schedule history out : list string) :
  finalize schedule history = Ok out →
  ∃ kept,
    remove_earlier_duplicate_trips history = Ok kept
    ∧ (combo_of_line <$> out) `sublist_of` (combo_of_line <$> kept)
    ∧ NoDup (combo_of_line <$> out).
Proof.
  unfold finalize. intros H.
  destruct (remove_earlier_duplicate_trips history) as [kept|] eqn:Hkept;
    [|done].
  frozen_cbn in H. exists kept. split; [done|].
  pose proof (dedup_Ok_parseable _ _ Hkept) as Hp.
  rewrite (dedup_parseable _ Hp) in Hkept. injection Hkept as <-.
  assert ((combo_of_line <$> out) `sublist_of`
          (combo_of_line <$> keep_last history)) as Hsub.
  { unfold log_scheduled_arrival_times in H.
    destruct (keep_last history) as [|first rows] eqn:Hk; [done|].
    change (Py.index (first :: rows) 0) with (Ok (A := string) first) in H.
    frozen_cbn in H. rewrite drop_0 in H.
    apply matcher_loop_inv in H as (appended & HF & ->).
    change ([first] ++ omap id appended) with (first :: omap id appended).
    rewrite !fmap_cons. apply sublist_skip.
    apply (matcher_combos_sublist schedule); [|done].
    assert (Forall parseable (first :: rows)) as Hall.
    { rewrite <- Hk. apply Forall_forall. intros x Hx.
      eapply Forall_forall; [exact Hp|].
      eapply elem_of_sublist; [exact Hx | apply keep_last_sublist]. }
    by apply Forall_cons in Hall as [_ ?]. }
  split; [done|].
  eapply sublist_NoDup; [apply keep_last_NoDup | exact Hsub].
Qed.

Lemma finalize_combos_distinct_witness :
  finalize schedule_one_trip sample_log
  = Ok [ header_line;
         "9001,2023-12-11T06:31,'FIFTH',1177,61A,OUTBOUND,2023-12-11,06:35,06:45,06:42" +:+ nl ]
  ∧ ∃ kept,
      remove_earlier_duplicate_trips sample_log = Ok kept
      ∧ (combo_of_line
           <$> [ header_line;
                 "9001,2023-12-11T06:31,'FIFTH',1177,61A,OUTBOUND,2023-12-11,06:35,06:45,06:42" +:+ nl ])
          `sublist_of` (combo_of_line <$> kept)
      ∧ NoDup (combo_of_line
           <$> [ header_line;
                 "9001,2023-12-11T06:31,'FIFTH',1177,61A,OUTBOUND,2023-12-11,06:35,06:45,06:42" +:+ nl ]).
Proof.
  assert (finalize schedule_one_trip sample_log
    = Ok [ header_line;
           "9001,2023-12-11T06:31,'FIFTH',1177,61A,OUTBOUND,2023-12-11,06:35,06:45,06:42" +:+ nl ])
    as Hrun by by_computation.
  split; [exact Hrun|].
  exact (finalize_combos_distinct schedule_one_trip sample_log _ Hrun).
Defined.

(** ** From the builder's table to the Matcher's fields *)

Section written_timetable_facts.

Implicit Types (row : list string) (c : string) (k : nat).

(** An inner cell of a written line is read back as it was written when
    the cells up to it hold no comma, whatever the later cells hold. *)
Lemma savetxt_field row k c :
  row !! k = Some c → (1 ≤ k)%nat → (k + 1 < length row)%nat →
  Forall (λ w, has_char "," w = false) (take (S k) row) →
  field k (Py.join "," row +:+ nl) = Ok c.
Proof.
  intros Hk H1 Hlen Hfree.
  pose proof (take_drop_middle row k c Hk) as Hrow.
  rewrite (take_S_r _ _ _ Hk) in Hfree.
  apply Forall_app in Hfree as [Hpre Hc]. rewrite Forall_singleton in Hc.
  assert (length (take k row) = k) as Hlpre by (rewrite length_take; lia).
  assert (length (drop (S k) row) ≠ 0%nat) as Hlpost
    by (rewrite length_drop; lia).
  destruct (take k row) as [|p pre] eqn:Hp; [simpl in Hlpre; lia|].
  destruct (drop (S k) row) as [|q post] eqn:Hq; [done|].
  rewrite <- Hrow.
  rewrite join_app by done. rewrite join_cons2.
  rewrite !string_app_assoc.
  change (Py.join "," (p :: pre) +:+ "," +:+ c +:+ "," +:+
          Py.join "," (q :: post) +:+ nl)
    with (Py.join "," (p :: pre) +:+
          String "," (c +:+ String "," (Py.join "," (q :: post) +:+ nl))).
  unfold field, Py.strip.
  rewrite (rstrip_app_nonspace (Py.join "," (p :: pre)) ",") by done.
  rewrite (rstrip_app_nonspace c ",") by done.
  rewrite (lstrip_app_nonspace (Py.join "," (p :: pre)) ",") by done.
  rewrite split_app. rewrite (split_app_sep "," c) by done.
  unfold Py.index.
  rewrite lookup_app_r; rewrite length_split_lstrip by done;
    rewrite (split_join "," (p :: pre)) by done; rewrite Hlpre; [|lia].
  by rewrite Nat.sub_diag.
Qed.

Lemma lookup_cons_succ {A} (x : A) (l : list A) (i : nat) :
  (x :: l) !! S i = l !! i.
Proof. reflexivity. Qed.

(** A dictionary holds rows of its table only. *)
Lemma dict_from_table (table : list Timetable.row4)
    (d : gmap string Timetable.row4) id r :
  foldl Timetable.dict_step d table !! id = Some r →
  d !! id = Some r ∨ r ∈ table.
Proof.
  revert d. induction table as [|x table IH]; intros d H; [by left|].
  simpl in H. apply IH in H as [H|H]; [|right; by right].
  unfold Timetable.dict_step in H.
  destruct (d !! Timetable.c0 x); [by left|].
  apply lookup_insert_Some in H as [[_ <-]|[_ H]]; [right; by left | by left].
Qed.

Lemma dict_cell_comma_free (table : list Timetable.row4) id
    (col : Timetable.row4 → string) :
  Forall (λ r, has_char "," (col r) = false) table →
  has_char ","
    (from_option col Timetable.zero
       (foldl Timetable.dict_step ∅ table !! id)) = false.
Proof.
  intros Htable.
  destruct (foldl Timetable.dict_step ∅ table !! id) as [r|] eqn:Hr; [|done].
  apply dict_from_table in Hr as [Hr|Hr]; [by rewrite lookup_empty in Hr|].
  simpl. by eapply Forall_forall in Htable.
Qed.

End written_timetable_facts.

(** X11: what the builder writes, the Matcher reads back.  The three
    loaded tables have at least two rows each, so that they are tables
    of rows and the table is built and written.  The first line of the
    file written is the header line, and for the stop_time row at index
    [i], whose cells and the cells of the trips table hold no comma, line
    [i + 1] of the file gives the Matcher, at fields 1 to 6, the cells of
    row [i + 1] of the table: in particular the arrival_time of the
    stop_time row at field 4 and its stop_id at field 6.  The contents of
    the stops table are free: a comma in a stop name moves the later
    fields only. *)
Theorem written_line_read_back (stop_times trips stops : list Timetable.row4)
    (i : nat) (st : Timetable.row4) :
  (2 ≤ length stop_times)%nat → (2 ≤ length trips)%nat →
  (2 ≤ length stops)%nat →
  stop_times !! i = Some st →
  comma_free st → Forall comma_free trips →
  write_schedule stop_times trips stops !! 0%nat = Some schedule_header
  ∧ ∃ row line,
      Timetable.mergeStopTimesAndTrips stop_times trips stops !! S i = Some row
      ∧ write_schedule stop_times trips stops !! S i = Some line
      ∧ (∀ k, (1 ≤ k ≤ 6)%nat → field k line = Py.index row k)
      ∧ field 4 line = Ok (Timetable.c1 st)
      ∧ field 6 line = Ok (Timetable.c3 st).
Proof.
  intros _ _ _ Hst (Hc0 & Hc1 & Hc2 & Hc3) Htrips.
  unfold write_schedule, savetxt, Timetable.mergeStopTimesAndTrips,
    Timetable.readTrips, Timetable.readStops, Timetable.readStopTimes.
  split; [reflexivity|].
  set (tripsDict := foldl Timetable.dict_step ∅ trips).
  set (stopsDict := foldl Timetable.dict_step ∅ stops).
  exists (Timetable.enrich tripsDict stopsDict (Timetable.widen st)),
    (Py.join "," (Timetable.enrich tripsDict stopsDict (Timetable.widen st))
     +:+ nl).
  assert (has_char ","
    (from_option Timetable.c1 Timetable.zero (tripsDict !! Timetable.c0 st))
    = false) as H1.
  { apply dict_cell_comma_free. eapply Forall_impl; [exact Htrips|].
    by intros r (_ & ? & _). }
  assert (has_char ","
    (from_option Timetable.c2 Timetable.zero (tripsDict !! Timetable.c0 st))
    = false) as H2.
  { apply dict_cell_comma_free. eapply Forall_impl; [exact Htrips|].
    by intros r (_ & _ & ? & _). }
  assert (has_char ","
    (from_option Timetable.c3 Timetable.zero (tripsDict !! Timetable.c0 st))
    = false) as H3.
  { apply dict_cell_comma_free. eapply Forall_impl; [exact Htrips|].
    by intros r (_ & _ & _ & ?). }
  assert (∀ k, (1 ≤ k ≤ 6)%nat →
    field k (Py.join ","
               (Timetable.enrich tripsDict stopsDict (Timetable.widen st))
             +:+ nl)
    = Py.index (Timetable.enrich tripsDict stopsDict (Timetable.widen st)) k)
    as Hfields.
  { intros k Hk. rewrite enrich_widen.
    assert (k = 1 ∨ k = 2 ∨ k = 3 ∨ k = 4 ∨ k = 5 ∨ k = 6)%nat
      as [->|[->|[->|[->|[->| ->]]]]] by lia;
      (erewrite savetxt_field;
       [reflexivity | reflexivity | lia | simpl; lia
       | cbn [take]; repeat (apply Forall_cons; split; [assumption|]);
         apply Forall_nil_2]). }
  split.
  { rewrite lookup_cons_succ. by rewrite !list_lookup_fmap, Hst. }
  split.
  { rewrite list_lookup_fmap, lookup_cons_succ.
    by rewrite !list_lookup_fmap, Hst. }
  split; [exact Hfields|].
  rewrite !Hfields by lia. by rewrite enrich_widen.
Qed.

Lemma written_line_read_back_witness :
  ((2 ≤ length sample_stop_times)%nat ∧ (2 ≤ length sample_trips)%nat
   ∧ (2 ≤ length sample_stops)%nat)
  ∧ write_schedule sample_stop_times sample_trips sample_stops !! 0%nat
    = Some schedule_header
  ∧ ∃ row line,
      Timetable.mergeStopTimesAndTrips sample_stop_times sample_trips
        sample_stops !! 1%nat = Some row
      ∧ write_schedule sample_stop_times sample_trips sample_stops !! 1%nat
        = Some line
      ∧ (∀ k, (1 ≤ k ≤ 6)%nat → field k line = Py.index row k)
      ∧ field 4 line = Ok "06:35:00"
      ∧ field 6 line = Ok "100".
Proof.
  assert (2 ≤ length sample_stop_times)%nat as H1 by (vm_compute; lia).
  assert (2 ≤ length sample_trips)%nat as H2 by (vm_compute; lia).
  assert (2 ≤ length sample_stops)%nat as H3 by (vm_compute; lia).
  assert (comma_free (Timetable.mkrow4 "T1" "06:35:00" "06:35:00" "100"))
    as Hst by by_computation.
  assert (Forall comma_free sample_trips) as Htrips by by_computation.
  split; [by repeat split|].
  exact (written_line_read_back sample_stop_times sample_trips sample_stops 0
           (Timetable.mkrow4 "T1" "06:35:00" "06:35:00" "100")
           H1 H2 H3 eq_refl Hst Htrips).
Defined.

(** ** The rows the recorder writes *)

Section recorded_row_facts.

Implicit Types (c sep : ascii) (s w : string) (row : list string).

Lemma has_char_rstrip c s :
  has_char c s = false → has_char c (Py.rstrip s) = false.
Proof.
  induction s as [|x s IH]; [done|]. simpl.
  intros [Hx Hs]%orb_false_iff. specialize (IH Hs).
  destruct (Py.rstrip s) as [|y r].
  - destruct (Py.isspace x); [done|]. simpl. by rewrite Hx.
  - change (has_char c (String x (String y r)) = false).
    simpl in IH |- *. by rewrite Hx, IH.
Qed.

(** The pieces of a text that lacks a character lack it too. *)
Lemma has_char_split c sep s :
  has_char c s = false →
  Forall (λ w, has_char c w = false) (Py.split sep s).
Proof.
  induction s as [|x s IH]; [by repeat constructor|]. simpl.
  intros [Hx Hs]%orb_false_iff. specialize (IH Hs).
  destruct (decide (x = sep)); [by constructor|].
  destruct (Py.split sep s) as [|w ws]; [repeat constructor; simpl|].
  - by rewrite Hx.
  - apply Forall_cons in IH as [Hw Hws]. constructor; [|done].
    simpl. by rewrite Hx, Hw.
Qed.

(** A written line of at least two comma-free cells splits into as many
    fields as it has cells. *)
Lemma join_line_length (pre : list string) (last : string) :
  pre ≠ [] → Forall (λ w, has_char "," w = false) pre →
  has_char "," last = false →
  length (Py.split "," (Py.strip (Py.join "," (pre ++ [last]) +:+ nl)))
  = S (length pre).
Proof.
  intros Hne Hpre Hlast.
  rewrite join_app by done.
  change (Py.join "," [last]) with last.
  rewrite !string_app_assoc.
  change (Py.join "," pre +:+ "," +:+ last +:+ nl)
    with (Py.join "," pre +:+ String "," (last +:+ nl)).
  unfold Py.strip.
  rewrite (rstrip_app_nonspace (Py.join "," pre) ",") by done.
  rewrite (rstrip_app_space last nl) by done.
  rewrite (lstrip_app_nonspace (Py.join "," pre) ",") by done.
  rewrite split_app_last by by apply has_char_rstrip.
  rewrite length_app, length_split_lstrip by done.
  rewrite split_join by done. simpl. lia.
Qed.

Lemma row_as_join (f0 f1 nm f3 f4 f5 f6 f7 f8 : string) :
  f0 +:+ "," +:+ f1 +:+ ",'" +:+ nm +:+ "'," +:+ f3 +:+ "," +:+ f4 +:+ ","
  +:+ f5 +:+ "," +:+ f6 +:+ "," +:+ f7 +:+ "," +:+ f8 +:+ nl
  = Py.join "," [f0; f1; "'" +:+ nm +:+ "'"; f3; f4; f5; f6; f7; f8] +:+ nl.
Proof.
  cbn [Py.join]. rewrite !string_app_assoc. reflexivity.
Qed.

Lemma strftime_Ymd_no_comma d : has_char "," (Datetime.strftime_Ymd d) = false.
Proof.
  unfold Datetime.strftime_Ymd.
  by rewrite !has_char_app, has_char_pad4, !has_char_pad2.
Qed.

(** What the conversion returns holds no comma. *)
Lemma convert_no_comma date_str seconds_str date time :
  convert_scheduled_start_date_time date_str seconds_str = Ok (date, time) →
  has_char "," date = false ∧ has_char "," time = false.
Proof.
  intros H.
  destruct (Datetime.strptime_Ymd date_str) as [d|] eqn:Hd.
  2:{ unfold convert_scheduled_start_date_time in H. by rewrite Hd in H. }
  destruct (Num.int seconds_str) as [n|] eqn:Hn.
  2:{ unfold convert_scheduled_start_date_time in H.
      rewrite Hd in H. frozen_cbn in H. by rewrite Hn in H. }
  destruct (Datetime.add_seconds d n) as [dt|] eqn:Hdt.
  2:{ unfold convert_scheduled_start_date_time in H.
      rewrite Hd in H. frozen_cbn in H. rewrite Hn in H. frozen_cbn in H.
      by rewrite Hdt in H. }
  rewrite (convert_of_moment _ _ _ _ _ Hd Hn Hdt) in H.
  injection H as <- <-. split; [apply strftime_Ymd_no_comma|].
  by rewrite !has_char_app, !has_char_pad2.
Qed.

End recorded_row_facts.

(** X8: the row the recorder writes for an arrival whose API values
    hold no comma has nine fields, and the two passes read in it what
    the recorder put there: the stop, route and direction of the API at
    fields 3, 4 and 5, the converted start date and time at fields 6 and
    7.  So the Matcher, on such a row, looks up exactly that stop, route,
    direction and start time, and appends the time found to the stripped
    row. *)
Theorem recorded_row_lookup
    (strptime_compact : string → result Datetime.datetime)
    (arrival : Api.prediction) (line : string) (schedule : list string) :
  plain arrival →
  log_row strptime_compact arrival = Ok line →
  ∃ date time,
    convert_scheduled_start_date_time (Api.stsd arrival) (Api.stst arrival)
      = Ok (date, time)
    ∧ length (Py.split "," (Py.strip line)) = 9%nat
    ∧ field 3 line = Ok (Api.stpid arrival)
    ∧ field 4 line = Ok (Api.rt arrival)
    ∧ field 5 line = Ok (Api.rtdir arrival)
    ∧ field 6 line = Ok date
    ∧ field 7 line = Ok time
    ∧ match_row schedule line
      = (t ← find_scheduled_arrival_time schedule (Api.stpid arrival)
               (Api.rt arrival) (Api.rtdir arrival) time;
         match t with
         | Some t => Ok (Some (Py.strip line +:+ "," +:+ t +:+ nl))
         | None => Ok None
         end).
Proof.
  intros (H0 & Hnm & H3 & H4 & H5 & Hprd) Hrow. unfold log_row in Hrow.
  destruct (convert_scheduled_start_date_time _ _) as [[date time]|] eqn:Hconv;
    [|done].
  frozen_cbn in Hrow.
  destruct (strptime_compact _) as [t|]; [|done]. frozen_cbn in Hrow.
  destruct (Py.index (Py.split " " (Api.prdtm arrival)) 1)
    as [arrival_time|] eqn:Harr; [|done].
  frozen_cbn in Hrow. injection Hrow as <-.
  exists date, time. split; [done|].
  destruct (convert_no_comma _ _ _ _ Hconv) as [H6 H7].
  assert (has_char "," arrival_time = false) as H8.
  { unfold Py.index in Harr.
    destruct (Py.split " " (Api.prdtm arrival) !! 1%nat) as [w|] eqn:Hw;
      [|done].
    injection Harr as <-.
    eapply (Forall_lookup_1 _ _ _ _ (has_char_split "," " " _ Hprd) Hw). }
  assert (has_char ","
    (Datetime.strftime_Ymd (Datetime.on t) +:+ "T"
     +:+ Datetime.strftime_HM (Datetime.hour t, Datetime.minute t)) = false)
    as H1.
  { by rewrite !has_char_app, strftime_Ymd_no_comma, strftime_HM_no_comma. }
  assert (has_char "," ("'" +:+ Api.stpnm arrival +:+ "'") = false) as H2.
  { by rewrite !has_char_app, Hnm. }
  rewrite row_as_join.
  set (log_time := Datetime.strftime_Ymd _ +:+ _) in *.
  set (name := "'" +:+ _ +:+ "'") in *.
  assert (length (Py.split "," (Py.strip (Py.join ","
            [Api.tatripid arrival; log_time; name; Api.stpid arrival;
             Api.rt arrival; Api.rtdir arrival; date; time; arrival_time]
            +:+ nl))) = 9%nat) as Hlen.
  { apply (join_line_length
             [Api.tatripid arrival; log_time; name; Api.stpid arrival;
              Api.rt arrival; Api.rtdir arrival; date; time] arrival_time);
      [done | | done].
    repeat (apply Forall_cons; split; [assumption|]). apply Forall_nil_2. }
  assert (∀ k c, (3 ≤ k ≤ 7)%nat →
    [Api.tatripid arrival; log_time; name; Api.stpid arrival;
     Api.rt arrival; Api.rtdir arrival; date; time; arrival_time] !! k
    = Some c →
    field k (Py.join ","
      [Api.tatripid arrival; log_time; name; Api.stpid arrival;
       Api.rt arrival; Api.rtdir arrival; date; time; arrival_time]
      +:+ nl) = Ok c) as Hfield.
  { intros k c Hk Hc. apply savetxt_field; [done | lia | simpl; lia |].
    assert (k = 3 ∨ k = 4 ∨ k = 5 ∨ k = 6 ∨ k = 7)%nat
      as [->|[->|[->|[->| ->]]]] by lia;
      (cbn [take]; repeat (apply Forall_cons; split; [assumption|]);
       apply Forall_nil_2). }
  pose proof (Hfield 3%nat _ ltac:(lia) eq_refl) as F3.
  pose proof (Hfield 4%nat _ ltac:(lia) eq_refl) as F4.
  pose proof (Hfield 5%nat _ ltac:(lia) eq_refl) as F5.
  pose proof (Hfield 6%nat _ ltac:(lia) eq_refl) as F6.
  pose proof (Hfield 7%nat _ ltac:(lia) eq_refl) as F7.
  repeat (split; [done|]).
  apply match_row_lookup; [|done..].
  rewrite Hlen. lia.
Qed.

Lemma recorded_row_lookup_witness :
  plain sample_prediction
  ∧ log_row
      (λ _, Ok (Datetime.mkdatetime (Datetime.mkdate 2023 12 11) 6 31))
      sample_prediction = Ok observation
  ∧ ∃ date time,
      convert_scheduled_start_date_time "2023-12-11" "23700" = Ok (date, time)
      ∧ length (Py.split "," (Py.strip observation)) = 9%nat
      ∧ field 3 observation = Ok "1177"
      ∧ field 4 observation = Ok "61A"
      ∧ field 5 observation = Ok "OUTBOUND"
      ∧ field 6 observation = Ok date
      ∧ field 7 observation = Ok time
      ∧ match_row schedule_one_trip observation
        = (t ← find_scheduled_arrival_time schedule_one_trip "1177" "61A"
                 "OUTBOUND" time;
           match t with
           | Some t => Ok (Some (Py.strip observation +:+ "," +:+ t +:+ nl))
           | None => Ok None
           end).
Proof.
  assert (plain sample_prediction) as Hplain by by_computation.
  assert (log_row
      (λ _, Ok (Datetime.mkdatetime (Datetime.mkdate 2023 12 11) 6 31))
      sample_prediction = Ok observation) as Hrow by by_computation.
  split; [exact Hplain|]. split; [exact Hrow|].
  exact (recorded_row_lookup _ sample_prediction observation schedule_one_trip
           Hplain Hrow).
Defined.

(** ** The list of stops sent to the API *)

Section stpid_facts.

Implicit Types (ids : list Z) (acc : string).

Lemma pretty_N_go_no_comma (x : N) (s : string) :
  has_char "," s = false → has_char "," (pretty_N_go x s) = false.
Proof.
  revert s. induction (N.lt_wf_0 x) as [x _ IH]; intros s Hs.
  assert (x = 0 ∨ 0 < x)%N as [->|Hx] by lia.
  - by rewrite pretty_N_go_0.
  - rewrite pretty_N_go_step by done. apply IH; [by apply N.div_lt|].
    simpl. rewrite Hs, orb_false_r. apply bool_decide_eq_false_2.
    unfold pretty_N_char. by repeat case_match.
Qed.

(** The decimal text of an integer holds no comma. *)
Lemma str_no_comma (n : Z) : has_char "," (Num.str n) = false.
Proof.
  unfold Num.str, pretty, pretty_Z.
  destruct n as [|p|p]; [done| |].
  - unfold pretty, pretty_positive, pretty, pretty_N.
    case_decide; [done|]. by apply pretty_N_go_no_comma.
  - rewrite has_char_app.
    unfold pretty, pretty_positive, pretty, pretty_N.
    case_decide; [done|]. by rewrite pretty_N_go_no_comma.
Qed.

(** The iterations after the first append a comma and an id each. *)
Lemma stpid_loop_tail ids (a n : nat) acc :
  (1 ≤ a)%nat → (a + n ≤ length ids)%nat →
  stpid_loop ids (seq a n) acc
  = Ok (acc +:+ foldr (λ x r, "," +:+ Num.str x +:+ r) ""
                  (take n (drop a ids))).
Proof.
  revert a acc. induction n as [|n IH]; intros a acc Ha Hlen.
  - simpl. by rewrite string_app_empty_r.
  - destruct (lookup_lt_is_Some_2 ids a ltac:(lia)) as [x Hx].
    change (seq a (S n)) with (a :: seq (S a) n).
    cbn [stpid_loop]. rewrite decide_False by lia.
    rewrite (index_Ok _ _ _ Hx). frozen_cbn.
    rewrite IH by lia. rewrite (drop_S _ _ _ Hx).
    cbn [take foldr]. by rewrite !string_app_assoc.
Qed.

Lemma join_foldr (w : string) (ws : list string) :
  Py.join "," (w :: ws) = w +:+ foldr (λ x r, "," +:+ x +:+ r) "" ws.
Proof.
  revert w. induction ws as [|w' ws IH]; intros w.
  - simpl. by rewrite string_app_empty_r.
  - rewrite join_cons2, IH. reflexivity.
Qed.

Lemma stpid_of_join ids :
  stpid_of ids = Ok (Py.join "," (Num.str <$> ids)).
Proof.
  destruct ids as [|x xs]; [done|].
  unfold stpid_of, range.
  change (length (x :: xs) - 0)%nat with (S (length xs)).
  change (seq 0 (S (length xs))) with (0%nat :: seq 1 (length xs)).
  cbn [stpid_loop]. rewrite decide_True by done.
  change (Py.index (x :: xs) 0) with (Ok (A := Z) x). frozen_cbn.
  rewrite stpid_loop_tail by (simpl; lia).
  change (drop 1 (x :: xs)) with xs. rewrite firstn_all.
  rewrite join_foldr. change ("" +:+ Num.str x) with (Num.str x).
  do 2 f_equal.
  induction xs as [|y ys IH]; [done|]. simpl. by rewrite IH.
Qed.

End stpid_facts.

(** X13: for any non-empty setting of [stop_ids], [stpid] returns, and
    what it returns, cut at the commas, is the decimal text of each stop
    id, once and in order: no comma leads, trails or is doubled. *)
Theorem stpid_lists_stop_ids (ids : list Z) :
  ids ≠ [] →
  ∃ s, stpid_of ids = Ok s ∧ Py.split "," s = Num.str <$> ids.
Proof.
  intros Hne. exists (Py.join "," (Num.str <$> ids)).
  split; [apply stpid_of_join|].
  apply split_join; [by destruct ids|].
  apply Forall_fmap, Forall_forall. intros n _. apply str_no_comma.
Qed.

Lemma stpid_lists_stop_ids_witness :
  stop_ids ≠ []
  ∧ stpid = Ok "7117,1177,7126,7096,2565,36,4407,1167,19383,3268"
  ∧ ∃ s, stpid_of stop_ids = Ok s ∧ Py.split "," s = Num.str <$> stop_ids.
Proof.
  assert (stop_ids ≠ []) as Hne by done.
  split; [exact Hne|]. split; [by_computation|].
  exact (stpid_lists_stop_ids stop_ids Hne).
Defined.

(** ** The key of a recorded row *)

Section recorded_key_facts.

Implicit Types (c : ascii) (s w : string).

Lemma has_char_lstrip c s :
  has_char c s = false → has_char c (Py.lstrip s) = false.
Proof.
  induction s as [|x s IH]; [done|]. intros H. simpl.
  destruct (Py.isspace x); [|done].
  simpl in H. apply orb_false_iff in H as [_ H]. by apply IH.
Qed.

(** The first field of a written line is its first cell, stripped on
    the left. *)
Lemma join_line_first (w : string) (rest : list string) :
  rest ≠ [] → has_char "," w = false →
  Py.split "," (Py.strip (Py.join "," (w :: rest) +:+ nl)) !! 0%nat
  = Some (Py.lstrip w).
Proof.
  intros Hne Hw. destruct rest as [|r rs]; [done|].
  rewrite join_cons2, !string_app_assoc.
  change (w +:+ "," +:+ Py.join "," (r :: rs) +:+ nl)
    with (w +:+ String "," (Py.join "," (r :: rs) +:+ nl)).
  unfold Py.strip.
  rewrite (rstrip_app_nonspace w ",") by done.
  rewrite (lstrip_app_nonspace w ",") by done.
  by rewrite split_app_sep by by apply has_char_lstrip.
Qed.

Lemma field_lookup (k : nat) (line : string) w :
  field k line = Ok w → Py.split "," (Py.strip line) !! k = Some w.
Proof.
  unfold field, Py.index.
  destruct (Py.split "," (Py.strip line) !! k); congruence.
Qed.

(** The row written for an arrival, as a list of cells. *)
Lemma log_row_cells (strptime_compact : string → result Datetime.datetime)
    (arrival : Api.prediction) (line : string) :
  plain arrival →
  log_row strptime_compact arrival = Ok line →
  ∃ date time log_time arrival_time,
    convert_scheduled_start_date_time (Api.stsd arrival) (Api.stst arrival)
      = Ok (date, time)
    ∧ line = Py.join ","
               [Api.tatripid arrival; log_time;
                "'" +:+ Api.stpnm arrival +:+ "'"; Api.stpid arrival;
                Api.rt arrival; Api.rtdir arrival; date; time; arrival_time]
             +:+ nl
    ∧ Forall (λ w, has_char "," w = false)
        [Api.tatripid arrival; log_time;
         "'" +:+ Api.stpnm arrival +:+ "'"; Api.stpid arrival;
         Api.rt arrival; Api.rtdir arrival; date; time; arrival_time].
Proof.
  intros (H0 & Hnm & H3 & H4 & H5 & Hprd) Hrow. unfold log_row in Hrow.
  destruct (convert_scheduled_start_date_time _ _) as [[date time]|] eqn:Hconv;
    [|done].
  frozen_cbn in Hrow.
  destruct (strptime_compact _) as [t|]; [|done]. frozen_cbn in Hrow.
  destruct (Py.index (Py.split " " (Api.prdtm arrival)) 1)
    as [arrival_time|] eqn:Harr; [|done].
  frozen_cbn in Hrow. injection Hrow as <-.
  destruct (convert_no_comma _ _ _ _ Hconv) as [H6 H7].
  assert (has_char "," arrival_time = false) as H8.
  { unfold Py.index in Harr.
    destruct (Py.split " " (Api.prdtm arrival) !! 1%nat) as [w|] eqn:Hw;
      [|done].
    injection Harr as <-.
    eapply (Forall_lookup_1 _ _ _ _ (has_char_split "," " " _ Hprd) Hw). }
  assert (has_char ","
    (Datetime.strftime_Ymd (Datetime.on t) +:+ "T"
     +:+ Datetime.strftime_HM (Datetime.hour t, Datetime.minute t)) = false)
    as H1.
  { by rewrite !has_char_app, strftime_Ymd_no_comma, strftime_HM_no_comma. }
  assert (has_char "," ("'" +:+ Api.stpnm arrival +:+ "'") = false) as H2.
  { by rewrite !has_char_app, Hnm. }
  exists date, time,
    (Datetime.strftime_Ymd (Datetime.on t) +:+ "T"
     +:+ Datetime.strftime_HM (Datetime.hour t, Datetime.minute t)),
    arrival_time.
  split; [done|]. split; [apply row_as_join|].
  repeat (apply Forall_cons; split; [assumption|]). apply Forall_nil_2.
Qed.

End recorded_key_facts.

(** X15: the key the Deduplicator reads in a recorded row is the key of
    the arrival.  For an arrival whose API values hold no comma, the
    fields 0, 3 and 6 of the row written are the trip id of the API
    (without leading blanks), its stop id, and the start date the
    conversion returned. *)
Theorem recorded_row_key
    (strptime_compact : string → result Datetime.datetime)
    (arrival : Api.prediction) (line : string) :
  plain arrival →
  log_row strptime_compact arrival = Ok line →
  ∃ date time,
    convert_scheduled_start_date_time (Api.stsd arrival) (Api.stst arrival)
      = Ok (date, time)
    ∧ log_key line
      = Some (Py.lstrip (Api.tatripid arrival), Api.stpid arrival, date).
Proof.
  intros Hplain Hrow.
  destruct (log_row_cells _ _ _ Hplain Hrow)
    as (date & time & log_time & arrival_time & Hconv & -> & Hfree).
  exists date, time. split; [done|].
  set (name := "'" +:+ _ +:+ "'") in *.
  unfold log_key.
  rewrite join_line_first; [|done|by apply Forall_cons in Hfree as [? _]].
  rewrite (field_lookup 3 _ (Api.stpid arrival)).
  2:{ apply savetxt_field; [done | lia | simpl; lia |].
      by apply Forall_take. }
  rewrite (field_lookup 6 _ date).
  2:{ apply savetxt_field; [done | lia | simpl; lia |].
      by apply Forall_take. }
  done.
Qed.

Lemma recorded_row_key_witness :
  plain sample_prediction
  ∧ log_row
      (λ _, Ok (Datetime.mkdatetime (Datetime.mkdate 2023 12 11) 6 31))
      sample_prediction = Ok observation
  ∧ ∃ date time,
      convert_scheduled_start_date_time "2023-12-11" "23700" = Ok (date, time)
      ∧ log_key observation = Some ("9001", "1177", date).
Proof.
  assert (plain sample_prediction) as Hplain by by_computation.
  assert (log_row
      (λ _, Ok (Datetime.mkdatetime (Datetime.mkdate 2023 12 11) 6 31))
      sample_prediction = Ok observation) as Hrow by by_computation.
  split; [exact Hplain|]. split; [exact Hrow|].
  exact (recorded_row_key _ sample_prediction observation Hplain Hrow).
Defined.
